(** * INA226 register driver: a shallow embedding of [ina226.py]

    The driver is a Python class whose attributes are register descriptors
    ([RWBits], [ROUnaryStruct], [UnaryStruct]) over an I2C device object.
    Integers are Python integers ([Z], with the bit operations of [Z]);
    bytes on the wire are [Byte.byte]; Python floats are binary64 values
    computed with the IEEE 754 operations of [SpecFloat]; the handle is a
    record; every property is a computation in a state-and-exception monad
    over the handle, the device and the log of bus transactions. *)

From Stdlib Require Import ZArith Lia List Bool Strings.Byte.
From Stdlib Require Import Floats.SpecFloat.
Import ListNotations.
Local Open Scope Z_scope.

(** ** Bytes on the wire *)

Definition byte_to_Z (b : byte) : Z := Z.of_N (Byte.to_N b).

(** [reg & 0xFF] stored into a bytearray cell. *)
Definition low_byte (z : Z) : byte :=
  match Byte.of_N (Z.to_N (Z.land z 0xFF)) with
  | Some b => b
  | None => x00
  end.

(** ** Python numbers *)

Module PyNum.

(** CPython floats are binary64. *)
Definition prec : Z := 53.
Definition emax : Z := 1024.

Inductive number : Type :=
| PyInt (z : Z)
| PyFloat (f : spec_float).

(** [float(z)]: exact for every integer below [2^53] in magnitude. *)
Definition float_of_int (z : Z) : spec_float :=
  binary_normalize prec emax z 0 false.

(** A decimal literal [num / den] with both parts exactly representable:
    the correctly rounded quotient is the binary64 value nearest to the
    literal, which is what the parser produces. *)
Definition float_literal (num den : Z) : spec_float :=
  SFdiv prec emax (float_of_int num) (float_of_int den).

Definition to_float (x : number) : spec_float :=
  match x with
  | PyInt z => float_of_int z
  | PyFloat f => f
  end.

(** [x * y]: integer product of two integers, otherwise the binary64
    product after converting the integer operand. *)
Definition mul (x y : number) : number :=
  match x, y with
  | PyInt a, PyInt b => PyInt (a * b)
  | _, _ => PyFloat (SFmul prec emax (to_float x) (to_float y))
  end.

(** [x == y] on numbers (operands here are small enough for the
    conversion of the integer side to be exact). *)
Definition eqb (x y : number) : bool :=
  match x, y with
  | PyInt a, PyInt b => a =? b
  | _, _ => SFeqb (to_float x) (to_float y)
  end.

End PyNum.
Import PyNum.

(** ** Register map and selector constants (module level of [ina226.py]) *)

Definition _REG_CONFIG : Z := 0x00.

Definition AVG_1 : Z := 0x00.
Definition AVG_4 : Z := 0x01.
Definition AVG_16 : Z := 0x02.
Definition AVG_64 : Z := 0x03.
Definition AVG_128 : Z := 0x04.
Definition AVG_256 : Z := 0x05.
Definition AVG_512 : Z := 0x06.
Definition AVG_1024 : Z := 0x07.

Definition VBUSCT_140US : Z := 0x00.
Definition VBUSCT_204US : Z := 0x01.
Definition VBUSCT_332US : Z := 0x02.
Definition VBUSCT_588US : Z := 0x03.
Definition VBUSCT_1MS : Z := 0x04.
Definition VBUSCT_2MS : Z := 0x05.
Definition VBUSCT_4MS : Z := 0x06.
Definition VBUSCT_8MS : Z := 0x07.

Definition VSHCT_140US : Z := 0x00.
Definition VSHCT_204US : Z := 0x01.
Definition VSHCT_332US : Z := 0x02.
Definition VSHCT_588US : Z := 0x03.
Definition VSHCT_1MS : Z := 0x04.
Definition VSHCT_2MS : Z := 0x05.
Definition VSHCT_4MS : Z := 0x06.
Definition VSHCT_8MS : Z := 0x07.

Definition POWERDOW : Z := 0x00.
Definition SVOLT_TRIGGERED : Z := 0x01.
Definition BVOLT_TRIGGERED : Z := 0x02.
Definition SANDBVOLT_TRIGGERED : Z := 0x03.
Definition ADCOFF : Z := 0x04.
Definition SVOLT_CONTINUOUS : Z := 0x05.
Definition BVOLT_CONTINUOUS : Z := 0x06.
Definition SANDBVOLT_CONTINUOUS : Z := 0x07.

Definition _REG_SHUNTVOLTAGE : Z := 0x01.
Definition _REG_BUSVOLTAGE : Z := 0x02.
Definition _REG_POWER : Z := 0x03.
Definition _REG_CURRENT : Z := 0x04.
Definition _REG_CALIBRATION : Z := 0x05.

(** [_to_signed(num)] *)
Definition _to_signed (num : Z) : Z :=
  if 0x7FFF <? num then num - 0x10000 else num.

(** ** Exceptions and the bus transport *)

Inductive error : Type :=
| TransportError   (* the bus transaction failed: NACK, timeout *)
| StructError.     (* the value does not fit, or the buffer does not match, the struct format *)

Inductive outcome (A : Type) : Type :=
| Ok (a : A)
| Raise (e : error).
Arguments Ok {A} a.
Arguments Raise {A} e.

(** One transaction of the driver on the bus: the register pointer is the
    first byte the driver sends. *)
Inductive transaction : Type :=
| BusRead (reg : byte) (len : nat)
| BusWrite (reg : byte) (data : list byte).

(** Modelled from the spec: the bus transport is an external collaborator
    (the [I2CDevice] object bound to the device address), section 6:
    [read(address, register, length) -> bytes] and
    [write(address, register, bytes)], both blocking, both able to fail.
    [bus_read] is [write_then_readinto] of the one-byte register pointer
    followed by a read of [len] bytes; [bus_write] is [write] of the
    pointer followed by the data. [None] and [false] are a transport
    failure. The device state moves at every transaction, so a device may
    change its registers on its own between two of them. *)
Class Transport (D : Type) : Type := {
  bus_read : D -> byte -> nat -> option (list byte) * D;
  bus_write : D -> byte -> list byte -> bool * D
}.

(** A mock transport: a file of 16-bit registers, big-endian on the wire,
    that stores what is written and never fails. *)
Record RegFile : Type := { cells : byte -> byte * byte }.

Definition regfile_read (d : RegFile) (reg : byte) (len : nat)
  : option (list byte) * RegFile :=
  (Some (firstn len [fst (cells d reg); snd (cells d reg)]), d).

Definition store (d : RegFile) (reg : byte) (hi lo : byte) : RegFile :=
  {| cells := fun r => if Byte.eqb r reg then (hi, lo) else cells d r |}.

Definition regfile_write (d : RegFile) (reg : byte) (data : list byte)
  : bool * RegFile :=
  match data with
  | [hi; lo] => (true, store d reg hi lo)
  | _ => (true, d)
  end.

#[export] Instance RegFile_Transport : Transport RegFile := {
  bus_read := regfile_read;
  bus_write := regfile_write
}.

(** ** The handle and the monad of driver computations *)

(** Instance attributes assigned by [__init__]; the device object is kept
    next to them in [World]. *)
Record INA226 : Type := {
  i2c_addr : Z;
  _cal_value : Z;
  _current_lsb : number;
  _power_lsb : number
}.

Record World (D : Type) : Type := {
  self : INA226;
  i2c_device : D;
  log : list transaction
}.
Arguments self {D} w.
Arguments i2c_device {D} w.
Arguments log {D} w.

Definition M (D A : Type) : Type := World D -> outcome A * World D.

Definition ret {D A} (a : A) : M D A := fun w => (Ok a, w).

Definition bind {D A B} (c : M D A) (k : A -> M D B) : M D B :=
  fun w =>
    match c w with
    | (Ok a, w') => k a w'
    | (Raise e, w') => (Raise e, w')
    end.

Definition lift {D A} (r : outcome A) : M D A := fun w => (r, w).

Notation "x <- c ;; k" := (bind c (fun x => k))
  (at level 61, c at next level, right associativity).
Notation "c ;;; k" := (bind c (fun _ => k))
  (at level 61, right associativity).

(** ** Big-endian integers and the [struct] formats the driver uses *)

(** [for b in bytes: reg = (reg << 8) | b] *)
Definition from_bytes_be (bs : list byte) : Z :=
  fold_left (fun reg b => Z.lor (Z.shiftl reg 8) (byte_to_Z b)) bs 0.

(** [n] bytes of [reg], least significant first:
    [buffer[i] = reg & 0xFF; reg >>= 8]. *)
Fixpoint to_bytes_le (n : nat) (reg : Z) : list byte :=
  match n with
  | O => []
  | S m => low_byte reg :: to_bytes_le m (Z.shiftr reg 8)
  end.

Definition to_bytes_be (n : nat) (reg : Z) : list byte := rev (to_bytes_le n reg).

(** The 16-bit value a mock register holds. *)
Definition reg_value (d : RegFile) (reg : byte) : Z :=
  from_bytes_be [fst (cells d reg); snd (cells d reg)].

(** Modelled from the spec: Python's [struct] module is a library, not
    part of the sources. Section 4.1: two bytes big-endian, read as a
    two's-complement signed 16-bit integer for [">h"] and as an unsigned
    one for [">H"]. *)
Module Struct.

Inductive format : Type :=
| fmt_h    (* ">h": big-endian signed 16-bit *)
| fmt_H.   (* ">H": big-endian unsigned 16-bit *)

Definition calcsize (f : format) : nat := 2.

(** Two's complement reading of a 16-bit pattern: minus the weight of
    bit 15 plus the fifteen low bits. *)
Definition twos_complement16 (u : Z) : Z := Z.land u 0x7FFF - Z.land u 0x8000.

Definition unpack (f : format) (bs : list byte) : outcome Z :=
  if Nat.eqb (length bs) (calcsize f) then
    match f with
    | fmt_H => Ok (from_bytes_be bs)
    | fmt_h => Ok (twos_complement16 (from_bytes_be bs))
    end
  else Raise StructError.

Definition in_range (f : format) (v : Z) : bool :=
  match f with
  | fmt_H => (0 <=? v) && (v <=? 0xFFFF)
  | fmt_h => (-0x8000 <=? v) && (v <=? 0x7FFF)
  end.

(** Packing a value outside the range of the format raises
    ([struct.error] in CPython, [OverflowError] in CircuitPython). *)
Definition pack (f : format) (v : Z) : outcome (list byte) :=
  if in_range f v then Ok (to_bytes_be (calcsize f) v) else Raise StructError.

End Struct.

(** ** Register descriptors *)

Section Driver.

Context {D : Type} {T : Transport D}.

(** Modelled from the spec: the two methods of the [I2CDevice] object that
    the descriptors call, over the transport above; each appends its
    transaction to the log, acknowledged or not.
    [i2c.write_then_readinto(buf, buf, out_end=1, in_start=1)]: *)
Definition write_then_readinto (reg : byte) (len : nat) : M D (list byte) :=
  fun w =>
    let (r, d) := bus_read (i2c_device w) reg len in
    let w' := {| self := self w; i2c_device := d;
                 log := log w ++ [BusRead reg len] |} in
    match r with
    | Some bs => (Ok bs, w')
    | None => (Raise TransportError, w')
    end.

(** [i2c.write(buf)] *)
Definition write (reg : byte) (data : list byte) : M D unit :=
  fun w =>
    let (ok, d) := bus_write (i2c_device w) reg data in
    let w' := {| self := self w; i2c_device := d;
                 log := log w ++ [BusWrite reg data] |} in
    if ok then (Ok tt, w') else (Raise TransportError, w').

(** Modelled from the spec: [adafruit_register.i2c_struct] is imported by
    [ina226.py] and not part of the sources. Section 4.1:
    [read_raw_signed] / [read_raw_unsigned] read 2 bytes big-endian and
    interpret them by the format; [write_raw] writes 2 bytes big-endian.
    The setter packs the value before it touches the bus.
    [ROUnaryStruct] is the same descriptor without the setter. *)
Record UnaryStruct : Type := {
  address : Z;
  format : Struct.format
}.

Definition UnaryStruct_get (u : UnaryStruct) : M D Z :=
  bs <- write_then_readinto (low_byte (address u)) (Struct.calcsize (format u)) ;;
  lift (Struct.unpack (format u) bs).

Definition UnaryStruct_set (u : UnaryStruct) (value : Z) : M D unit :=
  bs <- lift (Struct.pack (format u) value) ;;
  write (low_byte (address u)) bs.

(** Modelled from the spec: [adafruit_register.i2c_bits.RWBits] is
    imported by [ina226.py] and not part of the sources. The fields are
    the constructor's arguments
    [RWBits(num_bits, register_address, lowest_bit, register_width, lsb_first)],
    [signed] being its default. Section 4.1: [read_bits] reads the
    register, shifts right by the offset, masks to the width and
    sign-extends a signed field whose top bit is set; [write_bits] reads
    the current register value, clears the target bit span, ORs in the
    value shifted to the offset and writes back. Neither the spec's
    [write_bits] nor section 9 has a check of the value against the
    width; the bytes written back are the low bytes of the result. *)
Record RWBits : Type := {
  num_bits : Z;
  register_address : Z;
  lowest_bit : Z;
  register_width : nat;
  lsb_first : bool;
  signed : bool
}.

Definition bit_mask (f : RWBits) : Z :=
  Z.shiftl (Z.shiftl 1 (num_bits f) - 1) (lowest_bit f).

Definition sign_bit (f : RWBits) : Z :=
  if signed f then Z.shiftl 1 (num_bits f - 1) else 0.

Definition decode_register (f : RWBits) (bs : list byte) : Z :=
  from_bytes_be (if lsb_first f then rev bs else bs).

Definition encode_register (f : RWBits) (reg : Z) : list byte :=
  if lsb_first f then to_bytes_le (register_width f) reg
  else to_bytes_be (register_width f) reg.

(** The field of a register value. *)
Definition extract_bits (f : RWBits) (reg : Z) : Z :=
  let v := Z.land (Z.shiftr reg (lowest_bit f)) (Z.shiftl 1 (num_bits f) - 1) in
  if Z.land v (sign_bit f) =? 0 then v else v - 2 * sign_bit f.

(** The register value with the field replaced. *)
Definition replace_bits (f : RWBits) (reg value : Z) : Z :=
  Z.lor (Z.land reg (Z.lnot (bit_mask f))) (Z.shiftl value (lowest_bit f)).

Definition RWBits_get (f : RWBits) : M D Z :=
  bs <- write_then_readinto (low_byte (register_address f)) (register_width f) ;;
  ret (extract_bits f (decode_register f bs)).

Definition RWBits_set (f : RWBits) (value : Z) : M D unit :=
  bs <- write_then_readinto (low_byte (register_address f)) (register_width f) ;;
  write (low_byte (register_address f))
        (encode_register f (replace_bits f (decode_register f bs) value)).

(** ** The class [INA226] *)

(** config register break-up *)
Definition reset : RWBits :=
  {| num_bits := 1; register_address := _REG_CONFIG; lowest_bit := 15;
     register_width := 2; lsb_first := false; signed := false |}.
Definition num_averages : RWBits :=
  {| num_bits := 3; register_address := _REG_CONFIG; lowest_bit := 9;
     register_width := 2; lsb_first := false; signed := false |}.
Definition bus_conv_time : RWBits :=
  {| num_bits := 3; register_address := _REG_CONFIG; lowest_bit := 6;
     register_width := 2; lsb_first := false; signed := false |}.
Definition shunt_conv_time : RWBits :=
  {| num_bits := 3; register_address := _REG_CONFIG; lowest_bit := 3;
     register_width := 2; lsb_first := false; signed := false |}.
Definition mode : RWBits :=
  {| num_bits := 3; register_address := _REG_CONFIG; lowest_bit := 0;
     register_width := 2; lsb_first := false; signed := false |}.

Definition config_fields : list RWBits :=
  [reset; num_averages; bus_conv_time; shunt_conv_time; mode].

(** shunt voltage, bus voltage, power, current and calibration registers *)
Definition raw_shunt_voltage : UnaryStruct :=
  {| address := _REG_SHUNTVOLTAGE; format := Struct.fmt_h |}.
Definition raw_bus_voltage : UnaryStruct :=
  {| address := _REG_BUSVOLTAGE; format := Struct.fmt_h |}.
Definition raw_power : UnaryStruct :=
  {| address := _REG_POWER; format := Struct.fmt_H |}.
Definition raw_current : UnaryStruct :=
  {| address := _REG_CURRENT; format := Struct.fmt_h |}.
Definition _raw_calibration : UnaryStruct :=
  {| address := _REG_CALIBRATION; format := Struct.fmt_H |}.

(** Reading and assigning instance attributes. *)
Definition get_attr {A} (proj : INA226 -> A) : M D A :=
  fun w => (Ok (proj (self w)), w).

Definition set_cal_value (v : Z) : M D unit :=
  fun w =>
    (Ok tt, {| self := {| i2c_addr := i2c_addr (self w); _cal_value := v;
                          _current_lsb := _current_lsb (self w);
                          _power_lsb := _power_lsb (self w) |};
               i2c_device := i2c_device w; log := log w |}).

(** [calibration] (getter): the cached value. *)
Definition calibration : M D Z := get_attr _cal_value.

(** [calibration] (setter) *)
Definition set_calibration (cal_value : Z) : M D unit :=
  set_cal_value cal_value ;;;
  cal <- get_attr _cal_value ;;
  UnaryStruct_set _raw_calibration cal.

Definition shunt_voltage : M D number :=
  raw <- UnaryStruct_get raw_shunt_voltage ;;
  ret (mul (PyInt raw) (PyFloat (float_literal 25 10000000))).

Definition bus_voltage : M D number :=
  raw <- UnaryStruct_get raw_bus_voltage ;;
  ret (mul (PyInt raw) (PyFloat (float_literal 125 100000))).

Definition current : M D number :=
  cal <- get_attr _cal_value ;;
  UnaryStruct_set _raw_calibration cal ;;;
  raw <- UnaryStruct_get raw_current ;;
  lsb <- get_attr _current_lsb ;;
  ret (mul (PyInt raw) lsb).

Definition power : M D number :=
  cal <- get_attr _cal_value ;;
  UnaryStruct_set _raw_calibration cal ;;;
  raw <- UnaryStruct_get raw_power ;;
  lsb <- get_attr _power_lsb ;;
  ret (mul (PyInt raw) lsb).

(** [INA226(i2c_bus, addr)]: the attributes are assigned, then the three
    selectors are written through their descriptors. *)
Definition __init__ (i2c_bus : D) (addr : Z) : outcome unit * World D :=
  (RWBits_set num_averages AVG_256 ;;;
   RWBits_set bus_conv_time VBUSCT_2MS ;;;
   RWBits_set shunt_conv_time VSHCT_2MS)
    {| self := {| i2c_addr := addr; _cal_value := 0;
                  _current_lsb := PyInt 0; _power_lsb := PyInt 0 |};
       i2c_device := i2c_bus; log := [] |}.

(** A call on a handle: a read or a write through a bit-field descriptor,
    a read through a struct descriptor (those of the class among them), or
    one of the properties. *)
Inductive call : Type :=
| GetBits (f : RWBits)
| SetBits (f : RWBits) (value : Z)
| GetRaw (u : UnaryStruct)
| GetCalibration
| SetCalibration (cal_value : Z)
| GetShuntVoltage
| GetBusVoltage
| GetCurrent
| GetPower.

Definition discard {A} (c : M D A) : M D unit := c ;;; ret tt.

Definition perform (c : call) : M D unit :=
  match c with
  | GetBits f => discard (RWBits_get f)
  | SetBits f value => RWBits_set f value
  | GetRaw u => discard (UnaryStruct_get u)
  | GetCalibration => discard calibration
  | SetCalibration v => set_calibration v
  | GetShuntVoltage => discard shunt_voltage
  | GetBusVoltage => discard bus_voltage
  | GetCurrent => discard current
  | GetPower => discard power
  end.

(** A caller's session: the calls in order; a call that raises is caught
    by the caller and the session goes on with the world it left. *)
Fixpoint session (cs : list call) (w : World D) : World D :=
  match cs with
  | [] => w
  | c :: rest => session rest (snd (perform c w))
  end.

Definition sets_calibration (c : call) : bool :=
  match c with
  | SetCalibration _ => true
  | _ => false
  end.

(** A call whose calibration value, if it sets one, is a 16-bit unsigned
    integer, the type of [set_calibration]'s argument. *)
Definition call_typed (c : call) : bool :=
  match c with
  | SetCalibration v => Struct.in_range Struct.fmt_H v
  | _ => true
  end.

(** A computation that leaves the handle's attributes as they are. *)
Definition keeps_self {A} (c : M D A) : Prop :=
  forall w, self (snd (c w)) = self w.

End Driver.

(** ** Sample devices and handles *)

(** A register file with every register zero. *)
Definition blank_device : RegFile := {| cells := fun _ => (x00, x00) |}.

(** A chip out of reset (configuration 0x4127) that has measured: shunt
    voltage register -100, bus voltage register 8000, power register 100,
    current register 300. *)
Definition sample_device : RegFile :=
  {| cells := fun r =>
       if Byte.eqb r x00 then (x41, x27)
       else if Byte.eqb r x01 then (xff, x9c)
       else if Byte.eqb r x02 then (x1f, x40)
       else if Byte.eqb r x03 then (x00, x64)
       else if Byte.eqb r x04 then (x01, x2c)
       else (x00, x00) |}.

Definition handle_on (d : RegFile) (cal : Z) : World RegFile :=
  {| self := {| i2c_addr := 0x40; _cal_value := cal;
                _current_lsb := PyInt 0; _power_lsb := PyInt 0 |};
     i2c_device := d; log := [] |}.

(** A register file behind a bus that answers [budget] more transactions
    and fails every one after that; with budget 0, a bus with no device
    on it. *)
Record Flaky : Type := { inner : RegFile; budget : nat }.

Definition flaky_read (d : Flaky) (reg : byte) (len : nat)
  : option (list byte) * Flaky :=
  match budget d with
  | O => (None, d)
  | S k => (fst (regfile_read (inner d) reg len),
            {| inner := snd (regfile_read (inner d) reg len); budget := k |})
  end.

Definition flaky_write (d : Flaky) (reg : byte) (data : list byte)
  : bool * Flaky :=
  match budget d with
  | O => (false, d)
  | S k => (fst (regfile_write (inner d) reg data),
            {| inner := snd (regfile_write (inner d) reg data); budget := k |})
  end.

#[export] Instance Flaky_Transport : Transport Flaky := {
  bus_read := flaky_read;
  bus_write := flaky_write
}.

Definition flaky_handle (d : RegFile) (n : nat) (cal : Z) : World Flaky :=
  {| self := {| i2c_addr := 0x40; _cal_value := cal;
                _current_lsb := PyInt 0; _power_lsb := PyInt 0 |};
     i2c_device := {| inner := d; budget := n |}; log := [] |}.

(** The register a transaction addresses. *)
Definition transaction_reg (t : transaction) : byte :=
  match t with
  | BusRead reg _ => reg
  | BusWrite reg _ => reg
  end.

Definition is_write (t : transaction) : bool :=
  match t with
  | BusRead _ _ => false
  | BusWrite _ _ => true
  end.

(** ** The script [example.py] *)

(** [ina226 = INA226(i2c, addr=0x40)], then the two [print] calls: how
    the script ends, what it has printed by then, and the world it
    leaves. An exception ends the script where it is raised. *)
Definition example {D : Type} {T : Transport D} (i2c : D)
  : outcome unit * list number * World D :=
  let (r0, w0) := __init__ i2c 0x40 in
  match r0 with
  | Raise e => (Raise e, [], w0)
  | Ok _ =>
      let (r1, w1) := shunt_voltage w0 in
      match r1 with
      | Raise e => (Raise e, [], w1)
      | Ok v1 =>
          let (r2, w2) := bus_voltage w1 in
          match r2 with
          | Raise e => (Raise e, [v1], w2)
          | Ok v2 => (Ok tt, [v1; v2], w2)
          end
      end
  end.

(** ** Bit-level facts *)

Lemma mask_is_ones (n : Z) : Z.shiftl 1 n - 1 = Z.ones n.
Proof. unfold Z.ones. now rewrite Z.sub_1_r. Qed.

Lemma byte_to_Z_range (b : byte) : 0 <= byte_to_Z b < 256.
Proof.
  unfold byte_to_Z. pose proof (Byte.to_N_bounded b). lia.
Qed.

Lemma byte_to_Z_low_byte (z : Z) : byte_to_Z (low_byte z) = Z.land z 0xFF.
Proof.
  unfold low_byte, byte_to_Z.
  assert (R : 0 <= Z.land z 0xFF < 256).
  { change 0xFF with (Z.ones 8). rewrite Z.land_ones by lia.
    apply Z.mod_pos_bound. lia. }
  destruct (Byte.of_N (Z.to_N (Z.land z 0xFF))) as [b|] eqn:E.
  - apply Byte.to_of_N in E. rewrite E. lia.
  - apply Byte.of_N_None_iff in E. lia.
Qed.

Lemma low_byte_byte_to_Z (b : byte) : low_byte (byte_to_Z b) = b.
Proof.
  pose proof (byte_to_Z_range b) as R.
  unfold low_byte. change 0xFF with (Z.ones 8).
  rewrite Z.land_ones, Z.mod_small by lia.
  unfold byte_to_Z. rewrite N2Z.id, Byte.of_to_N. reflexivity.
Qed.



Lemma testbit_above (b k i : Z) :
  0 <= b < 2 ^ k -> k <= i -> Z.testbit b i = false.
Proof.
  intros Hb Hi.
  destruct (Z.eq_dec b 0) as [->|Hn]; [apply Z.testbit_0_l|].
  apply Z.bits_above_log2; [lia|].
  assert (0 <= k) by (destruct (Z.le_gt_cases 0 k); [assumption|];
                      rewrite Z.pow_neg_r in Hb by lia; lia).
  apply Z.lt_le_trans with k; [|assumption].
  apply Z.log2_lt_pow2; lia.
Qed.

Lemma lor_shiftl_add (a b k : Z) :
  0 <= k -> 0 <= b < 2 ^ k -> Z.lor (Z.shiftl a k) b = a * 2 ^ k + b.
Proof.
  intros Hk Hb.
  assert (Z.land (Z.shiftl a k) b = 0) as Hd.
  { apply Z.bits_inj'; intros i Hi.
    rewrite Z.land_spec, Z.testbit_0_l, Z.shiftl_spec by assumption.
    destruct (Z.lt_ge_cases i k).
    - rewrite (Z.testbit_neg_r a) by lia. reflexivity.
    - rewrite (testbit_above b k i) by lia. apply andb_false_r. }
  rewrite <- Z.lxor_lor, <- Z.add_nocarry_lxor by assumption.
  now rewrite Z.shiftl_mul_pow2.
Qed.

Lemma from_bytes_be_pair (hi lo : byte) :
  from_bytes_be [hi; lo] = byte_to_Z hi * 256 + byte_to_Z lo.
Proof.
  unfold from_bytes_be, fold_left.
  rewrite Z.shiftl_0_l, Z.lor_0_l.
  pose proof (byte_to_Z_range lo).
  now rewrite lor_shiftl_add by (change (2 ^ 8) with 256; lia).
Qed.

Lemma from_bytes_be_range (hi lo : byte) : 0 <= from_bytes_be [hi; lo] < 65536.
Proof.
  rewrite from_bytes_be_pair.
  pose proof (byte_to_Z_range hi). pose proof (byte_to_Z_range lo). lia.
Qed.

(** Two bytes written big-endian and read back: the value modulo 2^16. *)
Lemma from_to_bytes_be (v : Z) : from_bytes_be (to_bytes_be 2 v) = v mod 65536.
Proof.
  unfold to_bytes_be, to_bytes_le, rev, app.
  rewrite from_bytes_be_pair, !byte_to_Z_low_byte.
  change 0xFF with (Z.ones 8).
  rewrite !Z.land_ones, Z.shiftr_div_pow2 by lia.
  change (2 ^ 8) with 256.
  pose proof (Z.div_mod v 256 ltac:(lia)).
  pose proof (Z.div_mod (v / 256) 256 ltac:(lia)).
  pose proof (Z.mod_pos_bound v 256 ltac:(lia)).
  pose proof (Z.mod_pos_bound (v / 256) 256 ltac:(lia)).
  apply Z.mod_unique with (q := v / 256 / 256); lia.
Qed.

Lemma to_from_bytes_be (hi lo : byte) : to_bytes_be 2 (from_bytes_be [hi; lo]) = [hi; lo].
Proof.
  rewrite from_bytes_be_pair.
  pose proof (byte_to_Z_range hi). pose proof (byte_to_Z_range lo).
  unfold to_bytes_be, to_bytes_le, rev, app.
  f_equal; [|f_equal].
  - rewrite Z.shiftr_div_pow2 by lia. change (2 ^ 8) with 256.
    replace ((byte_to_Z hi * 256 + byte_to_Z lo) / 256) with (byte_to_Z hi)
      by (apply Z.div_unique with (r := byte_to_Z lo); lia).
    apply low_byte_byte_to_Z.
  - transitivity (low_byte (byte_to_Z lo)); [|apply low_byte_byte_to_Z].
    unfold low_byte. change 0xFF with (Z.ones 8). rewrite !Z.land_ones by lia.
    change (2 ^ 8) with 256.
    now rewrite Z.add_comm, Z.mod_add by lia.
Qed.

Lemma land_bit15 (n : Z) :
  0 <= n <= 0xFFFF -> Z.land n 0x8000 = 0x8000 * (n / 0x8000).
Proof.
  intros Hn.
  assert (n / 0x8000 = 0 \/ n / 0x8000 = 1) as Hq.
  { assert (0 <= n / 0x8000 < 2); [|lia].
    split; [apply Z.div_pos; lia | apply Z.div_lt_upper_bound; lia]. }
  apply Z.bits_inj'; intros i Hi. rewrite Z.land_spec.
  change 0x8000 with (2 ^ 15) at 1. rewrite Z.pow2_bits_eqb by lia.
  destruct (Z.eqb_spec 15 i) as [<-|Hne].
  - rewrite andb_true_r, Z.testbit_eqb by lia. change (2 ^ 15) with 0x8000.
    destruct Hq as [->| ->]; reflexivity.
  - rewrite andb_false_r. symmetry.
    destruct Hq as [->| ->]; [apply Z.testbit_0_l|].
    change (0x8000 * 1) with (2 ^ 15). apply Z.pow2_bits_false. assumption.
Qed.

(** The two's complement reading of a 16-bit pattern is [_to_signed]. *)
Lemma twos_complement16_to_signed (n : Z) :
  0 <= n <= 0xFFFF -> Struct.twos_complement16 n = _to_signed n.
Proof.
  intros Hn. unfold Struct.twos_complement16, _to_signed.
  rewrite land_bit15 by assumption.
  change 0x7FFF with (Z.ones 15) at 1. rewrite Z.land_ones by lia.
  change (2 ^ 15) with 0x8000.
  pose proof (Z.div_mod n 0x8000 ltac:(lia)) as Hdm.
  pose proof (Z.mod_pos_bound n 0x8000 ltac:(lia)) as Hm.
  destruct (Z.ltb_spec 0x7FFF n); lia.
Qed.

Lemma to_signed_wrap (r : Z) :
  -0x8000 <= r <= 0x7FFF -> _to_signed (r mod 65536) = r.
Proof.
  intros Hr. unfold _to_signed.
  destruct (Z.le_gt_cases 0 r).
  - rewrite Z.mod_small by lia. destruct (Z.ltb_spec 0x7FFF r); lia.
  - assert (r mod 65536 = r + 65536) as ->
      by (symmetry; apply Z.mod_unique with (q := -1); lia).
    destruct (Z.ltb_spec 0x7FFF (r + 65536)); lia.
Qed.

(** ** Bit-fields of a 16-bit register *)

Section Fields.

Variable f : RWBits.
Hypothesis width_nonneg : 0 <= num_bits f.
Hypothesis offset_nonneg : 0 <= lowest_bit f.

Lemma testbit_bit_mask (i : Z) :
  0 <= i ->
  Z.testbit (bit_mask f) i = (lowest_bit f <=? i) && (i <? lowest_bit f + num_bits f).
Proof.
  intros Hi. unfold bit_mask. rewrite mask_is_ones, Z.shiftl_spec by assumption.
  rewrite Z.testbit_ones by assumption.
  destruct (Z.leb_spec (lowest_bit f) i), (Z.leb_spec 0 (i - lowest_bit f)),
    (Z.ltb_spec (i - lowest_bit f) (num_bits f)),
    (Z.ltb_spec i (lowest_bit f + num_bits f)); simpl; try reflexivity; lia.
Qed.

Lemma testbit_replace_bits (reg value i : Z) :
  0 <= i ->
  Z.testbit (replace_bits f reg value) i =
    (Z.testbit reg i && negb ((lowest_bit f <=? i) && (i <? lowest_bit f + num_bits f)))
    || Z.testbit value (i - lowest_bit f).
Proof.
  intros Hi. unfold replace_bits.
  now rewrite Z.lor_spec, Z.land_spec, Z.lnot_spec, testbit_bit_mask, Z.shiftl_spec.
Qed.

(** Bits outside the span keep their value when the new value fits. *)
Lemma replace_bits_outside (reg value i : Z) :
  0 <= value < 2 ^ num_bits f ->
  0 <= i ->
  ~ (lowest_bit f <= i < lowest_bit f + num_bits f) ->
  Z.testbit (replace_bits f reg value) i = Z.testbit reg i.
Proof.
  intros Hv Hi Hout. rewrite testbit_replace_bits by assumption.
  destruct (Z.leb_spec (lowest_bit f) i), (Z.ltb_spec i (lowest_bit f + num_bits f));
    simpl; try lia.
  - rewrite (testbit_above value (num_bits f)) by (assumption || lia).
    now rewrite andb_true_r, orb_false_r.
  - rewrite (Z.testbit_neg_r value) by lia. now rewrite andb_true_r, orb_false_r.
Qed.

Hypothesis unsigned_field : signed f = false.

Lemma extract_bits_unsigned (reg : Z) :
  extract_bits f reg = Z.land (Z.shiftr reg (lowest_bit f)) (Z.ones (num_bits f)).
Proof.
  unfold extract_bits, sign_bit. rewrite unsigned_field, mask_is_ones.
  now rewrite Z.land_0_r.
Qed.

Hypothesis fits_register : lowest_bit f + num_bits f <= 16.

(** The field read from the 16 bits written back is the value written. *)
Lemma extract_replace_bits (reg value : Z) :
  0 <= value < 2 ^ num_bits f ->
  extract_bits f (replace_bits f reg value mod 65536) = value.
Proof.
  intros Hv. rewrite extract_bits_unsigned.
  apply Z.bits_inj'; intros i Hi.
  rewrite Z.land_spec, Z.shiftr_spec, Z.testbit_ones by assumption.
  change 65536 with (2 ^ 16). rewrite Z.testbit_mod_pow2 by lia.
  rewrite testbit_replace_bits by lia.
  replace (i + lowest_bit f - lowest_bit f) with i by lia.
  destruct (Z.ltb_spec i (num_bits f)).
  - destruct (Z.ltb_spec (i + lowest_bit f) 16); [|lia].
    destruct (Z.leb_spec (lowest_bit f) (i + lowest_bit f)); [|lia].
    destruct (Z.ltb_spec (i + lowest_bit f) (lowest_bit f + num_bits f)); [|lia].
    destruct (Z.leb_spec 0 i); [|lia].
    simpl. now rewrite andb_false_r, andb_true_r.
  - rewrite (testbit_above value (num_bits f)) by (assumption || lia).
    now rewrite !andb_false_r.
Qed.

End Fields.

Section Runs.

Context {D : Type} {T : Transport D}.

Lemma pack_H_ok (v : Z) :
  0 <= v <= 0xFFFF -> Struct.pack Struct.fmt_H v = Ok (to_bytes_be 2 v).
Proof.
  intros Hv. unfold Struct.pack, Struct.in_range.
  destruct (Z.leb_spec 0 v), (Z.leb_spec v 0xFFFF); try lia. reflexivity.
Qed.

Lemma write_run (reg : byte) (data : list byte) (w : World D) :
  write reg data w =
    (if fst (bus_write (i2c_device w) reg data) then Ok tt else Raise TransportError,
     {| self := self w; i2c_device := snd (bus_write (i2c_device w) reg data);
        log := log w ++ [BusWrite reg data] |}).
Proof.
  unfold write. destruct (bus_write (i2c_device w) reg data) as [[|] d]; reflexivity.
Qed.

Lemma write_then_readinto_run (reg : byte) (len : nat) (w : World D) :
  write_then_readinto reg len w =
    (match fst (bus_read (i2c_device w) reg len) with
     | Some bs => Ok bs
     | None => Raise TransportError
     end,
     {| self := self w; i2c_device := snd (bus_read (i2c_device w) reg len);
        log := log w ++ [BusRead reg len] |}).
Proof.
  unfold write_then_readinto.
  destruct (bus_read (i2c_device w) reg len) as [[bs|] d]; reflexivity.
Qed.

(** *** Computations that leave the handle's attributes alone *)

Lemma keeps_self_ret {A} (a : A) : keeps_self (ret (D:=D) a).
Proof. intros w. reflexivity. Qed.

Lemma keeps_self_lift {A} (r : outcome A) : keeps_self (lift (D:=D) r).
Proof. intros w. reflexivity. Qed.

Lemma keeps_self_get_attr {A} (proj : INA226 -> A) : keeps_self (get_attr (D:=D) proj).
Proof. intros w. reflexivity. Qed.

Lemma keeps_self_write (reg : byte) (data : list byte) : keeps_self (write reg data).
Proof. intros w. now rewrite write_run. Qed.

Lemma keeps_self_write_then_readinto (reg : byte) (len : nat) :
  keeps_self (write_then_readinto reg len).
Proof. intros w. now rewrite write_then_readinto_run. Qed.

Lemma keeps_self_bind {A B} (c : M D A) (k : A -> M D B) :
  keeps_self c -> (forall a, keeps_self (k a)) -> keeps_self (bind c k).
Proof.
  intros Hc Hk w. unfold bind. specialize (Hc w).
  destruct (c w) as [[a|e] w']; cbn [snd] in *.
  - now rewrite Hk.
  - assumption.
Qed.

Create HintDb keeps discriminated.
#[local] Hint Resolve keeps_self_ret keeps_self_lift keeps_self_get_attr
  keeps_self_write keeps_self_write_then_readinto : keeps.
#[local] Hint Extern 1 (keeps_self (bind _ _)) =>
  apply keeps_self_bind; [|intro] : keeps.

Lemma keeps_self_UnaryStruct_get (u : UnaryStruct) : keeps_self (UnaryStruct_get u).
Proof. unfold UnaryStruct_get. auto with keeps. Qed.

Lemma keeps_self_UnaryStruct_set (u : UnaryStruct) (v : Z) :
  keeps_self (UnaryStruct_set u v).
Proof. unfold UnaryStruct_set. auto with keeps. Qed.

Lemma keeps_self_RWBits_get (f : RWBits) : keeps_self (RWBits_get f).
Proof. unfold RWBits_get. auto with keeps. Qed.

Lemma keeps_self_RWBits_set (f : RWBits) (v : Z) : keeps_self (RWBits_set f v).
Proof. unfold RWBits_set. auto with keeps. Qed.

#[local] Hint Resolve keeps_self_UnaryStruct_get keeps_self_UnaryStruct_set
  keeps_self_RWBits_get keeps_self_RWBits_set : keeps.

Lemma keeps_self_shunt_voltage : keeps_self shunt_voltage.
Proof. unfold shunt_voltage. auto with keeps. Qed.

Lemma keeps_self_bus_voltage : keeps_self bus_voltage.
Proof. unfold bus_voltage. auto with keeps. Qed.

Lemma keeps_self_current : keeps_self current.
Proof. unfold current. auto 8 with keeps. Qed.

Lemma keeps_self_power : keeps_self power.
Proof. unfold power. auto 8 with keeps. Qed.

(** The calibration setter assigns the cache and nothing else, whether
    or not the write that follows goes through. *)
Lemma set_calibration_self (v : Z) (w : World D) :
  self (snd (set_calibration v w)) =
    {| i2c_addr := i2c_addr (self w); _cal_value := v;
       _current_lsb := _current_lsb (self w); _power_lsb := _power_lsb (self w) |}.
Proof.
  unfold set_calibration. unfold bind at 1. cbn [set_cal_value].
  match goal with |- self (snd (?c ?w')) = _ =>
    assert (keeps_self c) as K by auto with keeps; now rewrite K end.
Qed.

Lemma perform_self (c : call) (w : World D) :
  sets_calibration c = false -> self (snd (perform c w)) = self w.
Proof.
  destruct c; cbn [sets_calibration perform]; intros E; try discriminate;
    match goal with |- self (snd (?m w)) = _ =>
      assert (keeps_self m) as K
        by (unfold discard, calibration;
            auto using keeps_self_shunt_voltage, keeps_self_bus_voltage,
              keeps_self_current, keeps_self_power with keeps);
      apply K
    end.
Qed.

Lemma perform_lsb (c : call) (w : World D) :
  _current_lsb (self (snd (perform c w))) = _current_lsb (self w) /\
  _power_lsb (self (snd (perform c w))) = _power_lsb (self w).
Proof.
  destruct (sets_calibration c) eqn:E.
  - destruct c; try discriminate. cbn [perform].
    now rewrite set_calibration_self.
  - now rewrite perform_self.
Qed.

Lemma session_lsb (cs : list call) (w : World D) :
  _current_lsb (self (session cs w)) = _current_lsb (self w) /\
  _power_lsb (self (session cs w)) = _power_lsb (self w).
Proof.
  revert w. induction cs as [|c cs IH]; intros w; cbn [session].
  - split; reflexivity.
  - destruct (IH (snd (perform c w))) as [-> ->]. apply perform_lsb.
Qed.

Lemma session_cal_value (cs : list call) (w : World D) :
  forallb (fun c => negb (sets_calibration c)) cs = true ->
  _cal_value (self (session cs w)) = _cal_value (self w).
Proof.
  revert w. induction cs as [|c cs IH]; intros w; cbn [session forallb].
  - reflexivity.
  - intros H. apply andb_true_iff in H as [Hc Hcs].
    rewrite IH by assumption. rewrite perform_self; [reflexivity|].
    now destruct (sets_calibration c).
Qed.

(** *** What the struct formats read back *)

Lemma length_to_bytes_be (n : nat) (v : Z) : length (to_bytes_be n v) = n.
Proof.
  unfold to_bytes_be. rewrite length_rev. revert v.
  induction n as [|n IH]; intros v; cbn [to_bytes_le length]; auto.
Qed.

Lemma unpack_H_to_bytes (n : Z) :
  0 <= n <= 0xFFFF -> Struct.unpack Struct.fmt_H (to_bytes_be 2 n) = Ok n.
Proof.
  intros Hn. unfold Struct.unpack. rewrite length_to_bytes_be.
  cbn [Struct.calcsize Nat.eqb]. rewrite from_to_bytes_be, Z.mod_small by lia.
  reflexivity.
Qed.

Lemma unpack_h_pattern (n : Z) :
  0 <= n <= 0xFFFF ->
  Struct.unpack Struct.fmt_h (to_bytes_be 2 n) = Ok (_to_signed n).
Proof.
  intros Hn. unfold Struct.unpack. rewrite length_to_bytes_be.
  cbn [Struct.calcsize Nat.eqb]. rewrite from_to_bytes_be, Z.mod_small by lia.
  now rewrite twos_complement16_to_signed.
Qed.

Lemma unpack_h_to_bytes (r : Z) :
  -0x8000 <= r <= 0x7FFF -> Struct.unpack Struct.fmt_h (to_bytes_be 2 r) = Ok r.
Proof.
  intros Hr. unfold Struct.unpack. rewrite length_to_bytes_be.
  cbn [Struct.calcsize Nat.eqb]. rewrite from_to_bytes_be.
  rewrite twos_complement16_to_signed
    by (pose proof (Z.mod_pos_bound r 65536); lia).
  now rewrite to_signed_wrap.
Qed.

Lemma UnaryStruct_get_value (u : UnaryStruct) (w : World D) (bs : list byte) :
  fst (bus_read (i2c_device w) (low_byte (address u)) 2) = Some bs ->
  fst (UnaryStruct_get u w) = Struct.unpack (format u) bs.
Proof.
  intros Hr. unfold UnaryStruct_get, lift, bind, Struct.calcsize.
  rewrite write_then_readinto_run, Hr. reflexivity.
Qed.

Lemma fst_bind_ret {A B} (c : M D A) (g : World D -> A -> B) (w : World D) :
  fst (bind c (fun a w' => (Ok (g w' a), w')) w) =
    match fst (c w) with
    | Ok a => Ok (g (snd (c w)) a)
    | Raise e => Raise e
    end.
Proof. unfold bind. destruct (c w) as [[a|e] w']; reflexivity. Qed.

Lemma current_log (w : World D) :
  0 <= _cal_value (self w) <= 0xFFFF ->
  log (snd (current w)) =
    log w ++ BusWrite x05 (to_bytes_be 2 (_cal_value (self w)))
          :: (if fst (bus_write (i2c_device w) x05 (to_bytes_be 2 (_cal_value (self w))))
              then [BusRead x04 2] else []).
Proof.
  intros Hc. unfold current, UnaryStruct_set, UnaryStruct_get, get_attr, lift, ret, bind.
  cbn [format address _raw_calibration raw_current].
  rewrite (pack_H_ok _ Hc).
  change (low_byte _REG_CALIBRATION) with x05.
  change (low_byte _REG_CURRENT) with x04.
  cbv beta iota.
  rewrite write_run.
  destruct (fst (bus_write _ _ _)).
  - rewrite write_then_readinto_run.
   cbn [Struct.calcsize format raw_current].
    destruct (fst (bus_read _ _ _)) as [bs|]; cbn [log snd].
    + destruct (Struct.unpack _ bs); cbn [log snd ret]; now rewrite <- app_assoc.
    + now rewrite <- app_assoc.
  - reflexivity.
Qed.

Lemma power_log (w : World D) :
  0 <= _cal_value (self w) <= 0xFFFF ->
  log (snd (power w)) =
    log w ++ BusWrite x05 (to_bytes_be 2 (_cal_value (self w)))
          :: (if fst (bus_write (i2c_device w) x05 (to_bytes_be 2 (_cal_value (self w))))
              then [BusRead x03 2] else []).
Proof.
  intros Hc. unfold power, UnaryStruct_set, UnaryStruct_get, get_attr, lift, ret, bind.
  cbn [format address _raw_calibration raw_power].
  rewrite (pack_H_ok _ Hc).
  change (low_byte _REG_CALIBRATION) with x05.
  change (low_byte _REG_POWER) with x03.
  cbv beta iota.
  rewrite write_run.
  destruct (fst (bus_write _ _ _)).
  - rewrite write_then_readinto_run.
    destruct (fst (bus_read _ _ _)) as [bs|]; cbn [log snd].
    + destruct (Struct.unpack _ bs); cbn [log snd]; now rewrite <- app_assoc.
    + now rewrite <- app_assoc.
  - reflexivity.
Qed.

(** C1. Every read of [current] and of [power] first writes the cached
    calibration value to register 0x05 and only then, once that write is
    acknowledged, reads register 0x04 (respectively 0x03); nothing else
    goes over the bus. After [set_calibration 500] the bytes written
    ahead of the read of 0x04 are those of 500. *)
Theorem current_power_write_calibration_first (w : World D) :
  0 <= _cal_value (self w) <= 0xFFFF ->
  let data := to_bytes_be 2 (_cal_value (self w)) in
  let acked := fst (bus_write (i2c_device w) x05 data) in
  from_bytes_be data = _cal_value (self w) /\
  log (snd (current w)) =
    log w ++ BusWrite x05 data :: (if acked then [BusRead x04 2] else []) /\
  log (snd (power w)) =
    log w ++ BusWrite x05 data :: (if acked then [BusRead x03 2] else []) /\
  (forall w0 : World D,
      let w1 := snd (set_calibration 500 w0) in
      log (snd (current w1)) =
        log w1 ++ BusWrite x05 [x01; xf4]
              :: (if fst (bus_write (i2c_device w1) x05 [x01; xf4])
                  then [BusRead x04 2] else [])).
Proof.
  intros Hc data acked. repeat split.
  - unfold data. rewrite from_to_bytes_be. apply Z.mod_small. lia.
  - apply current_log, Hc.
  - apply power_log, Hc.
  - intros w0 w1.
    assert (_cal_value (self w1) = 500) as E
      by (unfold w1; now rewrite set_calibration_self).
    rewrite current_log by (rewrite E; lia). rewrite E. reflexivity.
Qed.

(** C6. For a 16-bit unsigned [v] the calibration setter stores [v] in
    the cache, issues exactly one bus transaction, a write of the two
    bytes of [v] to register 0x05, and leaves both scale factors as they
    were. *)
Theorem set_calibration_caches_and_writes (v : Z) (w : World D) :
  0 <= v <= 0xFFFF ->
  let w' := snd (set_calibration v w) in
  _cal_value (self w') = v /\
  log w' = log w ++ [BusWrite x05 (to_bytes_be 2 v)] /\
  from_bytes_be (to_bytes_be 2 v) = v /\
  _current_lsb (self w') = _current_lsb (self w) /\
  _power_lsb (self w') = _power_lsb (self w).
Proof.
  intros Hv w'. unfold w'. rewrite set_calibration_self.
  cbn [_cal_value _current_lsb _power_lsb].
  repeat split.
  - unfold set_calibration, set_cal_value, UnaryStruct_set, get_attr, lift, bind.
    cbn [format address _raw_calibration self _cal_value].
    rewrite (pack_H_ok _ Hv). cbv beta iota. rewrite write_run.
    reflexivity.
  - rewrite from_to_bytes_be. apply Z.mod_small. lia.
Qed.

(** C8. Once [v] has been set, and through any calls that are not
    another calibration set, a read of [calibration] returns [v] and
    leaves the world as it is: device untouched, nothing added to the
    log. *)
Theorem calibration_reads_cache (v : Z) (cs : list call) (w : World D) :
  forallb (fun c => negb (sets_calibration c)) cs = true ->
  let w' := session cs (snd (set_calibration v w)) in
  calibration w' = (Ok v, w').
Proof.
  intros Hcs w'. unfold calibration, get_attr. f_equal. f_equal.
  unfold w'. rewrite session_cal_value by assumption.
  now rewrite set_calibration_self.
Qed.

(** C2. Whatever signed 16-bit [r] the shunt voltage register holds,
    [shunt_voltage] returns the float product of [r] and [0.0000025]; for
    [r = -100] that product is the float [-0.00025]. *)
Theorem shunt_voltage_scaled (r : Z) (w : World D) :
  -0x8000 <= r <= 0x7FFF ->
  fst (bus_read (i2c_device w) x01 2) = Some (to_bytes_be 2 r) ->
  fst (shunt_voltage w) = Ok (mul (PyInt r) (PyFloat (float_literal 25 10000000))) /\
  mul (PyInt r) (PyFloat (float_literal 25 10000000)) =
    PyFloat (SFmul prec emax (float_of_int r) (float_literal 25 10000000)) /\
  mul (PyInt (-100)) (PyFloat (float_literal 25 10000000)) =
    PyFloat (SFopp (float_literal 25 100000)).
Proof.
  intros Hr Hbus. split; [|split].
  - unfold shunt_voltage, ret.
    rewrite (fst_bind_ret _ (fun _ raw => mul (PyInt raw) _)).
    rewrite (UnaryStruct_get_value raw_shunt_voltage w _ Hbus).
    cbn [format raw_shunt_voltage]. now rewrite unpack_h_to_bytes.
  - reflexivity.
  - vm_compute. reflexivity.
Qed.

(** C3. Whatever signed 16-bit [r] the bus voltage register holds,
    [bus_voltage] returns the float product of the whole of [r], neither
    shifted nor masked, and [0.00125]; for [r = 8000] that is [10.0]. *)
Theorem bus_voltage_scaled (r : Z) (w : World D) :
  -0x8000 <= r <= 0x7FFF ->
  fst (bus_read (i2c_device w) x02 2) = Some (to_bytes_be 2 r) ->
  fst (bus_voltage w) = Ok (mul (PyInt r) (PyFloat (float_literal 125 100000))) /\
  mul (PyInt r) (PyFloat (float_literal 125 100000)) =
    PyFloat (SFmul prec emax (float_of_int r) (float_literal 125 100000)) /\
  mul (PyInt 8000) (PyFloat (float_literal 125 100000)) = PyFloat (float_of_int 10).
Proof.
  intros Hr Hbus. split; [|split].
  - unfold bus_voltage, ret.
    rewrite (fst_bind_ret _ (fun _ raw => mul (PyInt raw) _)).
    rewrite (UnaryStruct_get_value raw_bus_voltage w _ Hbus).
    cbn [format raw_bus_voltage]. now rewrite unpack_h_to_bytes.
  - reflexivity.
  - vm_compute. reflexivity.
Qed.

Lemma current_value (w : World D) (hi lo : byte) :
  0 <= _cal_value (self w) <= 0xFFFF ->
  let data := to_bytes_be 2 (_cal_value (self w)) in
  fst (bus_write (i2c_device w) x05 data) = true ->
  fst (bus_read (snd (bus_write (i2c_device w) x05 data)) x04 2) = Some [hi; lo] ->
  fst (current w) =
    Ok (mul (PyInt (Struct.twos_complement16 (from_bytes_be [hi; lo])))
            (_current_lsb (self w))).
Proof.
  intros Hc data Hw Hr.
  unfold current, UnaryStruct_set, UnaryStruct_get, get_attr, lift, ret, bind.
  cbn [format address _raw_calibration raw_current].
  rewrite (pack_H_ok _ Hc).
  change (low_byte _REG_CALIBRATION) with x05.
  change (low_byte _REG_CURRENT) with x04.
  cbv beta iota. rewrite write_run. fold data. rewrite Hw.
  rewrite write_then_readinto_run. unfold Struct.calcsize. cbn [i2c_device].
  rewrite Hr. reflexivity.
Qed.

Lemma power_value (w : World D) (hi lo : byte) :
  0 <= _cal_value (self w) <= 0xFFFF ->
  let data := to_bytes_be 2 (_cal_value (self w)) in
  fst (bus_write (i2c_device w) x05 data) = true ->
  fst (bus_read (snd (bus_write (i2c_device w) x05 data)) x03 2) = Some [hi; lo] ->
  fst (power w) =
    Ok (mul (PyInt (from_bytes_be [hi; lo])) (_power_lsb (self w))).
Proof.
  intros Hc data Hw Hr.
  unfold power, UnaryStruct_set, UnaryStruct_get, get_attr, lift, ret, bind.
  cbn [format address _raw_calibration raw_power].
  rewrite (pack_H_ok _ Hc).
  change (low_byte _REG_CALIBRATION) with x05.
  change (low_byte _REG_POWER) with x03.
  cbv beta iota. rewrite write_run. fold data. rewrite Hw.
  rewrite write_then_readinto_run. unfold Struct.calcsize. cbn [i2c_device].
  rewrite Hr. reflexivity.
Qed.

Lemma init_self (i2c_bus : D) (addr : Z) :
  self (snd (__init__ i2c_bus addr)) =
    {| i2c_addr := addr; _cal_value := 0;
       _current_lsb := PyInt 0; _power_lsb := PyInt 0 |}.
Proof.
  unfold __init__.
  match goal with |- self (snd (?c ?w)) = _ =>
    assert (keeps_self c) as K by auto with keeps; now rewrite K end.
Qed.

(** The cached calibration stays a 16-bit unsigned integer from
    construction on, through calls that set only such values. *)
Lemma session_cal_typed (cs : list call) (w : World D) :
  forallb call_typed cs = true ->
  Struct.in_range Struct.fmt_H (_cal_value (self w)) = true ->
  Struct.in_range Struct.fmt_H (_cal_value (self (session cs w))) = true.
Proof.
  revert w. induction cs as [|c cs IH]; intros w; cbn [session forallb].
  - auto.
  - intros H Hw. apply andb_true_iff in H as [Hc Hcs].
    apply IH; [assumption|].
    destruct (sets_calibration c) eqn:E.
    + destruct c; try discriminate. cbn [perform].
      now rewrite set_calibration_self.
    + now rewrite perform_self.
Qed.

Lemma calibration_stays_uint16 (i2c_bus : D) (addr : Z) (cs : list call) :
  forallb call_typed cs = true ->
  0 <= _cal_value (self (session cs (snd (__init__ i2c_bus addr)))) <= 0xFFFF.
Proof.
  intros Hcs.
  assert (Struct.in_range Struct.fmt_H
            (_cal_value (self (session cs (snd (__init__ i2c_bus addr))))) = true) as H
    by (apply session_cal_typed; [assumption|now rewrite init_self]).
  unfold Struct.in_range in H. apply andb_true_iff in H as [H1 H2].
  apply Z.leb_le in H1, H2. lia.
Qed.

(** C7. A 16-bit pattern [n] read as signed is [n] up to [0x7FFF] and
    [n - 0x10000] above: so says [_to_signed], and so do the reads of the
    shunt voltage, bus voltage and current registers; the power register
    reads as [n] itself. *)
Theorem signed_registers_twos_complement (n : Z) (w : World D) :
  0 <= n <= 0xFFFF ->
  _to_signed n = (if n <=? 0x7FFF then n else n - 0x10000) /\
  (forall u, In u [raw_shunt_voltage; raw_bus_voltage; raw_current] ->
     fst (bus_read (i2c_device w) (low_byte (address u)) 2) = Some (to_bytes_be 2 n) ->
     fst (UnaryStruct_get u w) = Ok (_to_signed n)) /\
  (fst (bus_read (i2c_device w) x03 2) = Some (to_bytes_be 2 n) ->
   fst (UnaryStruct_get raw_power w) = Ok n).
Proof.
  intros Hn. split; [|split].
  - unfold _to_signed.
    destruct (Z.ltb_spec 0x7FFF n), (Z.leb_spec n 0x7FFF); lia.
  - intros u Hu Hbus. rewrite (UnaryStruct_get_value u w _ Hbus).
    cbn [In] in Hu. destruct Hu as [<-|[<-|[<-|[]]]]; now apply unpack_h_pattern.
  - intros Hbus. rewrite (UnaryStruct_get_value raw_power w _ Hbus).
    now apply unpack_H_to_bytes.
Qed.

(** C9. A freshly constructed handle has cached calibration 0 and both
    scale factors the integer 0; no sequence of calls on the handle
    changes either scale factor; so whatever two bytes the current or
    the power register answers with, [current] and [power] return the
    integer 0, which compares equal to [0.0]. *)
Theorem scale_factors_stay_zero (i2c_bus : D) (addr : Z) (cs : list call) :
  let w0 := snd (__init__ i2c_bus addr) in
  let w := session cs w0 in
  let data := to_bytes_be 2 (_cal_value (self w)) in
  (_cal_value (self w0) = 0 /\
   _current_lsb (self w0) = PyInt 0 /\ _power_lsb (self w0) = PyInt 0) /\
  (_current_lsb (self w) = PyInt 0 /\ _power_lsb (self w) = PyInt 0) /\
  (forall hi lo : byte,
      0 <= _cal_value (self w) <= 0xFFFF ->
      fst (bus_write (i2c_device w) x05 data) = true ->
      fst (bus_read (snd (bus_write (i2c_device w) x05 data)) x04 2) = Some [hi; lo] ->
      fst (current w) = Ok (PyInt 0)) /\
  (forall hi lo : byte,
      0 <= _cal_value (self w) <= 0xFFFF ->
      fst (bus_write (i2c_device w) x05 data) = true ->
      fst (bus_read (snd (bus_write (i2c_device w) x05 data)) x03 2) = Some [hi; lo] ->
      fst (power w) = Ok (PyInt 0)) /\
  PyNum.eqb (PyInt 0) (PyFloat (S754_zero false)) = true.
Proof.
  intros w0 w data.
  assert (_current_lsb (self w) = PyInt 0 /\ _power_lsb (self w) = PyInt 0) as [Ec Ep].
  { unfold w. destruct (session_lsb cs w0) as [-> ->].
    unfold w0. now rewrite init_self. }
  split; [|split; [|split; [|split]]].
  - unfold w0. now rewrite init_self.
  - now split.
  - intros hi lo Hc Hw Hr.
    rewrite (current_value w hi lo Hc Hw Hr), Ec.
    cbn [mul]. now rewrite Z.mul_0_r.
  - intros hi lo Hc Hw Hr.
    rewrite (power_value w hi lo Hc Hw Hr), Ep.
    cbn [mul]. now rewrite Z.mul_0_r.
  - reflexivity.
Qed.

End Runs.



(** ** The driver on the mock register file *)

Section Mock.

Implicit Types (w : World RegFile) (d : RegFile) (f : RWBits).

Lemma reg_value_store_same d (reg hi lo : byte) :
  reg_value (store d reg hi lo) reg = from_bytes_be [hi; lo].
Proof.
  unfold reg_value, store. cbn [cells].
  now rewrite (Byte.byte_dec_lb (eq_refl reg)).
Qed.

Lemma cells_store_other d (reg r hi lo : byte) :
  r <> reg -> cells (store d reg hi lo) r = cells d r.
Proof.
  intros Hn. unfold store. cbn [cells].
  destruct (Byte.eqb r reg) eqn:E; [|reflexivity].
  now apply Byte.byte_dec_bl in E.
Qed.

Lemma reg_value_range d (reg : byte) : 0 <= reg_value d reg < 65536.
Proof. apply from_bytes_be_range. Qed.

Lemma RWBits_set_regfile f (value : Z) w :
  register_width f = 2%nat ->
  lsb_first f = false ->
  let reg := low_byte (register_address f) in
  let new := replace_bits f (reg_value (i2c_device w) reg) value in
  RWBits_set f value w =
    (Ok tt,
     {| self := self w;
        i2c_device := store (i2c_device w) reg (low_byte (Z.shiftr new 8)) (low_byte new);
        log := log w ++ [BusRead reg 2; BusWrite reg (to_bytes_be 2 new)] |}).
Proof.
  intros Hw Hl reg new. unfold RWBits_set, bind.
  rewrite write_then_readinto_run, Hw.
  cbn [bus_read RegFile_Transport regfile_read firstn fst snd].
  rewrite write_run. cbn [i2c_device self log].
  unfold encode_register, decode_register. rewrite Hl, Hw.
  fold reg. fold (reg_value (i2c_device w) reg). fold new.
  unfold to_bytes_be, to_bytes_le. cbn [rev app].
  cbn [bus_write RegFile_Transport regfile_write fst snd].
  now rewrite <- app_assoc.
Qed.

Lemma RWBits_get_regfile f w :
  register_width f = 2%nat ->
  lsb_first f = false ->
  RWBits_get f w =
    (Ok (extract_bits f (reg_value (i2c_device w) (low_byte (register_address f)))),
     {| self := self w; i2c_device := i2c_device w;
        log := log w ++ [BusRead (low_byte (register_address f)) 2] |}).
Proof.
  intros Hw Hl. unfold RWBits_get, bind, ret.
  rewrite write_then_readinto_run, Hw.
  cbn [bus_read RegFile_Transport regfile_read firstn fst snd].
  unfold decode_register. rewrite Hl. reflexivity.
Qed.

(** What every field of the configuration register has in common. *)
Lemma config_fields_shape f :
  In f config_fields ->
  register_address f = _REG_CONFIG /\ register_width f = 2%nat /\
  lsb_first f = false /\ signed f = false /\
  0 <= num_bits f /\ 0 <= lowest_bit f /\ lowest_bit f + num_bits f <= 16 /\
  In (num_bits f, lowest_bit f) [(1, 15); (3, 9); (3, 6); (3, 3); (3, 0)].
Proof.
  cbn [config_fields In].
  intros [<-|[<-|[<-|[<-|[<-|[]]]]]]; cbn; repeat split; try lia; tauto.
Qed.

(** C4. For each of the five fields of the configuration register and
    every value that fits its width, writing the value and reading the
    field back gives the value, and every bit of the register outside
    the field's span is as before. *)
Theorem config_field_roundtrip f (v : Z) w :
  In f config_fields ->
  0 <= v < 2 ^ num_bits f ->
  let w' := snd (RWBits_set f v w) in
  In (num_bits f, lowest_bit f) [(1, 15); (3, 9); (3, 6); (3, 3); (3, 0)] /\
  fst (RWBits_set f v w) = Ok tt /\
  fst (RWBits_get f w') = Ok v /\
  (forall i, 0 <= i < 16 ->
     ~ (lowest_bit f <= i < lowest_bit f + num_bits f) ->
     Z.testbit (reg_value (i2c_device w') x00) i =
       Z.testbit (reg_value (i2c_device w) x00) i).
Proof.
  intros Hf Hv w'.
  destruct (config_fields_shape f Hf) as (Ha & Hw & Hl & Hs & Hn & Ho & Hfit & Hshape).
  unfold w'. rewrite (RWBits_set_regfile f v w Hw Hl).
  rewrite Ha. change (low_byte _REG_CONFIG) with x00. cbn [fst snd].
  split; [assumption|]. split; [reflexivity|]. split.
  - rewrite (RWBits_get_regfile f _ Hw Hl). cbn [fst i2c_device].
    rewrite Ha. change (low_byte _REG_CONFIG) with x00.
    rewrite reg_value_store_same.
    change [low_byte (Z.shiftr ?x 8); low_byte ?x] with (to_bytes_be 2 x).
    rewrite from_to_bytes_be.
    f_equal. now apply extract_replace_bits.
  - intros i Hi Hout. cbn [i2c_device].
    rewrite reg_value_store_same.
    change [low_byte (Z.shiftr ?x 8); low_byte ?x] with (to_bytes_be 2 x).
    rewrite from_to_bytes_be. change 65536 with (2 ^ 16).
    rewrite Z.mod_pow2_bits_low by lia.
    apply replace_bits_outside; assumption || lia.
Qed.

Lemma stored_value d (reg : byte) (x : Z) :
  reg_value (store d reg (low_byte (Z.shiftr x 8)) (low_byte x)) reg = x mod 65536.
Proof. rewrite reg_value_store_same. apply (from_to_bytes_be x). Qed.

(** A value that fits put into a field that fits leaves a 16-bit register
    value 16 bits wide. *)
Lemma replace_bits_16bit f (reg value : Z) :
  0 <= num_bits f -> 0 <= lowest_bit f -> lowest_bit f + num_bits f <= 16 ->
  0 <= reg < 65536 -> 0 <= value < 2 ^ num_bits f ->
  replace_bits f reg value mod 65536 = replace_bits f reg value.
Proof.
  intros Hn Ho Hfit Hreg Hv. change 65536 with (2 ^ 16) in *.
  apply Z.bits_inj'; intros i Hi.
  rewrite Z.testbit_mod_pow2 by lia.
  destruct (Z.ltb_spec i 16); [reflexivity|]. cbn [andb]. symmetry.
  rewrite testbit_replace_bits by assumption.
  rewrite (testbit_above reg 16), (testbit_above value (num_bits f))
    by (assumption || lia).
  reflexivity.
Qed.

Lemma init_regfile d (addr : Z) :
  let c1 := replace_bits num_averages (reg_value d x00) AVG_256 in
  let c2 := replace_bits bus_conv_time c1 VBUSCT_2MS in
  let c3 := replace_bits shunt_conv_time c2 VSHCT_2MS in
  let w := snd (__init__ d addr) in
  fst (__init__ d addr) = Ok tt /\
  log w = [BusRead x00 2; BusWrite x00 (to_bytes_be 2 c1);
           BusRead x00 2; BusWrite x00 (to_bytes_be 2 c2);
           BusRead x00 2; BusWrite x00 (to_bytes_be 2 c3)] /\
  reg_value (i2c_device w) x00 = c3 /\
  (forall r, r <> x00 -> cells (i2c_device w) r = cells d r).
Proof.
  intros c1 c2 c3 w.
  assert (E1 : c1 mod 65536 = c1).
  { apply replace_bits_16bit; try (vm_compute; intuition discriminate).
    apply reg_value_range. }
  assert (E2 : c2 mod 65536 = c2).
  { apply replace_bits_16bit; try (vm_compute; intuition discriminate).
    rewrite <- E1. apply Z.mod_pos_bound. lia. }
  assert (E3 : c3 mod 65536 = c3).
  { apply replace_bits_16bit; try (vm_compute; intuition discriminate).
    rewrite <- E2. apply Z.mod_pos_bound. lia. }
  unfold w, __init__, bind.
  rewrite RWBits_set_regfile by reflexivity.
  rewrite RWBits_set_regfile by reflexivity.
  rewrite RWBits_set_regfile by reflexivity.
  cbn [fst snd i2c_device log self register_address
         num_averages bus_conv_time shunt_conv_time].
  change (low_byte _REG_CONFIG) with x00.
  rewrite !stored_value. fold c1. rewrite E1. fold c2. rewrite E2. fold c3.
  split; [reflexivity|]. split; [reflexivity|]. split; [exact E3|].
  intros r Hr. now rewrite !cells_store_other.
Qed.

(** A field whose bits agree in two register values reads the same. *)
Lemma extract_bits_ext f (a b : Z) :
  0 <= num_bits f -> 0 <= lowest_bit f -> signed f = false ->
  (forall i, lowest_bit f <= i < lowest_bit f + num_bits f ->
     Z.testbit a i = Z.testbit b i) ->
  extract_bits f a = extract_bits f b.
Proof.
  intros Hn Ho Hs Hab. rewrite !extract_bits_unsigned by assumption.
  apply Z.bits_inj'; intros i Hi.
  rewrite !Z.land_spec, !Z.shiftr_spec, Z.testbit_ones by assumption.
  destruct (Z.leb_spec 0 i); [|lia].
  destruct (Z.ltb_spec i (num_bits f)); cbn [andb].
  - rewrite !andb_true_r. apply Hab. lia.
  - now rewrite !andb_false_r.
Qed.

(** Bit by bit, the configuration register after construction: the
    three selectors hold [101] each, the rest is what it was. *)
Lemma init_config_bits (c i : Z) :
  0 <= c < 65536 -> 0 <= i ->
  Z.testbit
    (replace_bits shunt_conv_time
       (replace_bits bus_conv_time
          (replace_bits num_averages c AVG_256) VBUSCT_2MS) VSHCT_2MS) i =
  if (3 <=? i) && (i <? 12) then Z.testbit 0x0B68 i else Z.testbit c i.
Proof.
  intros Hc Hi.
  rewrite !testbit_replace_bits by (assumption || (vm_compute; discriminate)).
  cbn [lowest_bit num_bits num_averages bus_conv_time shunt_conv_time].
  unfold AVG_256, VBUSCT_2MS, VSHCT_2MS.
  destruct (Z.lt_ge_cases i 16) as [Hlt|Hge].
  - assert (i = 0 \/ i = 1 \/ i = 2 \/ i = 3 \/ i = 4 \/ i = 5 \/ i = 6 \/ i = 7 \/
            i = 8 \/ i = 9 \/ i = 10 \/ i = 11 \/ i = 12 \/ i = 13 \/ i = 14 \/ i = 15)
      as Hcases by lia.
    repeat (destruct Hcases as [->|Hcases]); [..|subst i];
      match goal with |- context [Z.testbit c ?k] =>
        generalize (Z.testbit c k); intros b; destruct b; reflexivity end.
  - rewrite (testbit_above c 16) by (change (2 ^ 16) with 65536; lia).
    rewrite !(testbit_above 5 3) by (change (2 ^ 3) with 8; lia).
    destruct (Z.leb_spec 3 i), (Z.ltb_spec i 12); try lia. reflexivity.
Qed.

(** C10. Constructing a handle goes over the bus: three
    read-modify-write pairs on the configuration register, each writing
    back what was read with one selector replaced by 0x05, after which the
    averaging, bus conversion-time and shunt conversion-time selectors
    read 0x05 while the reset bit, the operating mode, every other bit of
    the register and every other register are as before. *)
Theorem init_writes_selectors (d : RegFile) (addr : Z) :
  let w := snd (__init__ d addr) in
  let c := reg_value d x00 in
  let c1 := replace_bits num_averages c AVG_256 in
  let c2 := replace_bits bus_conv_time c1 VBUSCT_2MS in
  let c3 := replace_bits shunt_conv_time c2 VSHCT_2MS in
  fst (__init__ d addr) = Ok tt /\
  log w = [BusRead x00 2; BusWrite x00 (to_bytes_be 2 c1);
           BusRead x00 2; BusWrite x00 (to_bytes_be 2 c2);
           BusRead x00 2; BusWrite x00 (to_bytes_be 2 c3)] /\
  reg_value (i2c_device w) x00 = c3 /\
  extract_bits num_averages c3 = AVG_256 /\
  extract_bits bus_conv_time c3 = VBUSCT_2MS /\
  extract_bits shunt_conv_time c3 = VSHCT_2MS /\
  extract_bits reset c3 = extract_bits reset c /\
  extract_bits mode c3 = extract_bits mode c /\
  (forall i, 0 <= i -> ~ (3 <= i < 12) -> Z.testbit c3 i = Z.testbit c i) /\
  (forall r, r <> x00 -> cells (i2c_device w) r = cells d r).
Proof.
  intros w c c1 c2 c3.
  destruct (init_regfile d addr) as (Hok & Hlog & Hreg & Hother).
  split; [exact Hok|]. split; [exact Hlog|]. split; [exact Hreg|].
  clear Hok Hlog Hreg.
  assert (Hbits : forall i, 0 <= i ->
            Z.testbit c3 i =
              if (3 <=? i) && (i <? 12) then Z.testbit 0x0B68 i else Z.testbit c i)
    by (intros i Hi; apply init_config_bits; [apply reg_value_range|assumption]).
  clearbody c3 c.
  assert (Hout : forall i, 0 <= i -> ~ (3 <= i < 12) -> Z.testbit c3 i = Z.testbit c i).
  { intros i Hi Hn. rewrite Hbits by assumption.
    destruct (Z.leb_spec 3 i), (Z.ltb_spec i 12); try lia; reflexivity. }
  assert (Hin : forall f,
            0 <= num_bits f -> 0 <= lowest_bit f -> signed f = false ->
            3 <= lowest_bit f -> lowest_bit f + num_bits f <= 12 ->
            extract_bits f c3 = extract_bits f 0x0B68).
  { intros f Hn Ho Hs Hlo Hhi. apply extract_bits_ext; try assumption.
    intros i Hi. rewrite Hbits by lia.
    destruct (Z.leb_spec 3 i), (Z.ltb_spec i 12); try lia; reflexivity. }
  split; [apply (Hin num_averages); vm_compute; intuition discriminate|].
  split; [apply (Hin bus_conv_time); vm_compute; intuition discriminate|].
  split; [apply (Hin shunt_conv_time); vm_compute; intuition discriminate|].
  split; [|split; [|split; [exact Hout|exact Hother]]].
  - apply extract_bits_ext; try (vm_compute; intuition discriminate).
    intros i Hi. apply Hout; change (lowest_bit reset) with 15 in Hi; lia.
  - apply extract_bits_ext; try (vm_compute; intuition discriminate).
    intros i Hi. apply Hout;
      change (lowest_bit mode) with 0 in Hi; change (num_bits mode) with 3 in Hi; lia.
Qed.

(** C5, as the driver has it. A field write makes no check of the value
    against the width: a value of [2 ^ width] or more is not refused; the
    register is read and written back as
    [(old & ~mask) | (value << offset)] cut to 16 bits, so the bits below
    the field keep their value and each bit above it is ORed with the bit
    of the value that lands there. *)
Theorem oversized_field_value_is_written f (v : Z) w :
  In f config_fields ->
  2 ^ num_bits f <= v ->
  let old := reg_value (i2c_device w) x00 in
  let new := replace_bits f old v in
  let w' := snd (RWBits_set f v w) in
  fst (RWBits_set f v w) = Ok tt /\
  log w' = log w ++ [BusRead x00 2; BusWrite x00 (to_bytes_be 2 new)] /\
  reg_value (i2c_device w') x00 = new mod 65536 /\
  (forall i, 0 <= i < lowest_bit f ->
     Z.testbit (reg_value (i2c_device w') x00) i = Z.testbit old i) /\
  (forall i, lowest_bit f + num_bits f <= i < 16 ->
     Z.testbit (reg_value (i2c_device w') x00) i =
       Z.testbit old i || Z.testbit v (i - lowest_bit f)).
Proof.
  intros Hf _ old new w'.
  destruct (config_fields_shape f Hf) as (Ha & Hw & Hl & Hs & Hn & Ho & Hfit & Hshape).
  assert (Hreg : reg_value (i2c_device w') x00 = new mod 65536).
  { unfold w'. rewrite (RWBits_set_regfile f v w Hw Hl).
    rewrite Ha. change (low_byte _REG_CONFIG) with x00. cbn [snd i2c_device].
    apply stored_value. }
  assert (Hbit : forall i, 0 <= i < 16 ->
            Z.testbit (reg_value (i2c_device w') x00) i = Z.testbit new i).
  { intros i Hi. rewrite Hreg. change 65536 with (2 ^ 16).
    apply Z.mod_pow2_bits_low. lia. }
  split; [|split; [|split; [exact Hreg|split]]].
  - now rewrite (RWBits_set_regfile f v w Hw Hl).
  - unfold w'. rewrite (RWBits_set_regfile f v w Hw Hl).
    rewrite Ha. reflexivity.
  - intros i Hi. rewrite Hbit by lia. unfold new.
    rewrite testbit_replace_bits by lia.
    rewrite (Z.testbit_neg_r v) by lia.
    destruct (Z.leb_spec (lowest_bit f) i); [lia|].
    cbn [andb negb]. now rewrite andb_true_r, orb_false_r.
  - intros i Hi. rewrite Hbit by lia. unfold new.
    rewrite testbit_replace_bits by lia.
    destruct (Z.ltb_spec i (lowest_bit f + num_bits f)); [lia|].
    now rewrite andb_false_r, andb_true_r.
Qed.

End Mock.


(** ** Scenarios of the spec's section 8 *)

(** Calibration 2048, current scale factor 0.1, current register 300:
    [current] returns 30.0. *)
Example current_scenario :
  fst (current
         {| self := {| i2c_addr := 0x40; _cal_value := 2048;
                       _current_lsb := PyFloat (float_literal 1 10);
                       _power_lsb := PyInt 0 |};
            i2c_device := sample_device; log := [] |})
  = Ok (PyFloat (float_of_int 30)).
Proof. vm_compute. reflexivity. Qed.

(** A three-bit field holding [0b100] reads -4 when signed and 4 when
    not, at every offset a 16-bit register allows. *)
Example sign_extension_scenario :
  forallb (fun o =>
      let field s :=
        {| num_bits := 3; register_address := _REG_CONFIG; lowest_bit := Z.of_nat o;
           register_width := 2; lsb_first := false; signed := s |} in
      (extract_bits (field true) (Z.shiftl 4 (Z.of_nat o)) =? -4)
      && (extract_bits (field false) (Z.shiftl 4 (Z.of_nat o)) =? 4))
    (seq 0 14) = true.
Proof. vm_compute. reflexivity. Qed.

(** ** The theorems at sample inputs *)

Lemma current_power_write_calibration_first_witness :
  0 <= _cal_value (self (handle_on sample_device 500)) <= 0xFFFF /\
  log (snd (current (handle_on sample_device 500))) =
    [BusWrite x05 [x01; xf4]; BusRead x04 2] /\
  log (snd (power (handle_on sample_device 500))) =
    [BusWrite x05 [x01; xf4]; BusRead x03 2].
Proof.
  assert (0 <= _cal_value (self (handle_on sample_device 500)) <= 0xFFFF) as H
    by (cbn; lia).
  split; [exact H|].
  destruct (current_power_write_calibration_first (handle_on sample_device 500) H)
    as (_ & Hc & Hp & _).
  split; [exact Hc|exact Hp].
Defined.

Lemma shunt_voltage_scaled_witness :
  -0x8000 <= -100 <= 0x7FFF /\
  fst (bus_read (i2c_device (handle_on sample_device 0)) x01 2)
    = Some (to_bytes_be 2 (-100)) /\
  fst (shunt_voltage (handle_on sample_device 0)) =
    Ok (PyFloat (SFopp (float_literal 25 100000))).
Proof.
  assert (-0x8000 <= -100 <= 0x7FFF) as Hr by lia.
  assert (fst (bus_read (i2c_device (handle_on sample_device 0)) x01 2)
          = Some (to_bytes_be 2 (-100))) as Hb by reflexivity.
  split; [exact Hr|]. split; [exact Hb|].
  destruct (shunt_voltage_scaled (-100) (handle_on sample_device 0) Hr Hb)
    as (Hv & _ & He).
  exact (eq_trans Hv (f_equal Ok He)).
Defined.

Lemma bus_voltage_scaled_witness :
  -0x8000 <= 8000 <= 0x7FFF /\
  fst (bus_read (i2c_device (handle_on sample_device 0)) x02 2)
    = Some (to_bytes_be 2 8000) /\
  fst (bus_voltage (handle_on sample_device 0)) = Ok (PyFloat (float_of_int 10)).
Proof.
  assert (-0x8000 <= 8000 <= 0x7FFF) as Hr by lia.
  assert (fst (bus_read (i2c_device (handle_on sample_device 0)) x02 2)
          = Some (to_bytes_be 2 8000)) as Hb by reflexivity.
  split; [exact Hr|]. split; [exact Hb|].
  destruct (bus_voltage_scaled 8000 (handle_on sample_device 0) Hr Hb)
    as (Hv & _ & He).
  exact (eq_trans Hv (f_equal Ok He)).
Defined.

Lemma config_field_roundtrip_witness :
  In num_averages config_fields /\
  0 <= AVG_1024 < 2 ^ num_bits num_averages /\
  fst (RWBits_get num_averages
         (snd (RWBits_set num_averages AVG_1024 (handle_on sample_device 0))))
    = Ok AVG_1024.
Proof.
  assert (In num_averages config_fields) as Hf by (right; left; reflexivity).
  assert (0 <= AVG_1024 < 2 ^ num_bits num_averages) as Hv
    by (change (2 ^ num_bits num_averages) with 8; unfold AVG_1024; lia).
  split; [exact Hf|]. split; [exact Hv|].
  destruct (config_field_roundtrip num_averages AVG_1024
              (handle_on sample_device 0) Hf Hv) as (_ & _ & Hg & _).
  exact Hg.
Defined.

(** C5, the claim at a value that does not fit. Writing 8 to the
    three-bit averaging selector of a blank register is not refused: the
    write goes out, the selector reads 0, and bit 12, outside the field,
    goes from 0 to 1. *)
Lemma oversized_selector_not_refused :
  2 ^ num_bits num_averages <= 8 /\
  fst (RWBits_set num_averages 8 (handle_on blank_device 0)) = Ok tt /\
  log (snd (RWBits_set num_averages 8 (handle_on blank_device 0))) =
    [BusRead x00 2; BusWrite x00 [x10; x00]] /\
  fst (RWBits_get num_averages
         (snd (RWBits_set num_averages 8 (handle_on blank_device 0)))) = Ok 0 /\
  Z.testbit (reg_value blank_device x00) 12 = false /\
  Z.testbit
    (reg_value (i2c_device (snd (RWBits_set num_averages 8 (handle_on blank_device 0))))
       x00) 12 = true.
Proof.
  split; [change (2 ^ num_bits num_averages) with 8; lia|].
  vm_compute. repeat split.
Qed.

Lemma oversized_field_value_is_written_witness :
  In num_averages config_fields /\
  2 ^ num_bits num_averages <= 8 /\
  log (snd (RWBits_set num_averages 8 (handle_on sample_device 0))) =
    [BusRead x00 2; BusWrite x00 [x51; x27]].
Proof.
  assert (In num_averages config_fields) as Hf by (right; left; reflexivity).
  assert (2 ^ num_bits num_averages <= 8) as Hv
    by (change (2 ^ num_bits num_averages) with 8; lia).
  split; [exact Hf|]. split; [exact Hv|].
  destruct (oversized_field_value_is_written num_averages 8
              (handle_on sample_device 0) Hf Hv) as (_ & Hl & _).
  exact Hl.
Defined.

Lemma set_calibration_caches_and_writes_witness :
  0 <= 500 <= 0xFFFF /\
  _cal_value (self (snd (set_calibration 500 (handle_on sample_device 0)))) = 500 /\
  log (snd (set_calibration 500 (handle_on sample_device 0))) =
    [BusWrite x05 [x01; xf4]].
Proof.
  assert (0 <= 500 <= 0xFFFF) as Hv by lia.
  split; [exact Hv|].
  destruct (set_calibration_caches_and_writes 500 (handle_on sample_device 0) Hv)
    as (Hc & Hl & _).
  split; [exact Hc|exact Hl].
Defined.

Lemma signed_registers_twos_complement_witness :
  0 <= 0xFF9C <= 0xFFFF /\
  _to_signed 0xFF9C = -100 /\
  fst (bus_read (i2c_device (handle_on sample_device 0))
         (low_byte (address raw_shunt_voltage)) 2) = Some (to_bytes_be 2 0xFF9C) /\
  fst (UnaryStruct_get raw_shunt_voltage (handle_on sample_device 0)) = Ok (-100).
Proof.
  assert (0 <= 0xFF9C <= 0xFFFF) as Hn by lia.
  destruct (signed_registers_twos_complement 0xFF9C (handle_on sample_device 0) Hn)
    as (Hs & Hu & _).
  split; [exact Hn|]. split; [exact Hs|].
  assert (fst (bus_read (i2c_device (handle_on sample_device 0))
                 (low_byte (address raw_shunt_voltage)) 2)
          = Some (to_bytes_be 2 0xFF9C)) as Hb by reflexivity.
  split; [exact Hb|].
  exact (Hu raw_shunt_voltage (or_introl eq_refl) Hb).
Defined.

Lemma calibration_reads_cache_witness :
  forallb (fun c => negb (sets_calibration c))
    [GetCurrent; SetBits mode SVOLT_CONTINUOUS; GetRaw raw_power] = true /\
  fst (calibration
         (session [GetCurrent; SetBits mode SVOLT_CONTINUOUS; GetRaw raw_power]
            (snd (set_calibration 2048 (handle_on sample_device 0))))) = Ok 2048.
Proof.
  assert (forallb (fun c => negb (sets_calibration c))
            [GetCurrent; SetBits mode SVOLT_CONTINUOUS; GetRaw raw_power] = true)
    as Hcs by reflexivity.
  split; [exact Hcs|].
  rewrite (calibration_reads_cache 2048 _ (handle_on sample_device 0) Hcs).
  reflexivity.
Defined.

Lemma scale_factors_stay_zero_witness :
  0 <= _cal_value
         (self (session [SetCalibration 2048; GetPower]
                  (snd (__init__ sample_device 0x40)))) <= 0xFFFF /\
  fst (current (session [SetCalibration 2048; GetPower]
                  (snd (__init__ sample_device 0x40)))) = Ok (PyInt 0) /\
  fst (power (session [SetCalibration 2048; GetPower]
                (snd (__init__ sample_device 0x40)))) = Ok (PyInt 0).
Proof.
  assert (0 <= _cal_value
                 (self (session [SetCalibration 2048; GetPower]
                          (snd (__init__ sample_device 0x40)))) <= 0xFFFF) as Hc
    by (vm_compute; split; discriminate).
  split; [exact Hc|].
  destruct (scale_factors_stay_zero sample_device 0x40 [SetCalibration 2048; GetPower])
    as (_ & _ & Hcur & Hpow & _).
  split.
  - exact (Hcur x01 x2c Hc eq_refl eq_refl).
  - exact (Hpow x00 x64 Hc eq_refl eq_refl).
Defined.

(** * Further properties of the driver *)

(** ** [_to_signed] *)

(** On 16-bit patterns [_to_signed] lands in the signed 16-bit range and
    loses nothing: the pattern is the result modulo [0x10000]; and it
    undoes the two's complement encoding of every signed 16-bit value. *)
Theorem to_signed_roundtrip (n : Z) :
  0 <= n <= 0xFFFF ->
  -0x8000 <= _to_signed n <= 0x7FFF /\
  _to_signed n mod 0x10000 = n /\
  (forall r, -0x8000 <= r <= 0x7FFF -> _to_signed (r mod 0x10000) = r).
Proof.
  intros Hn. split; [|split].
  - unfold _to_signed. destruct (Z.ltb_spec 0x7FFF n); lia.
  - unfold _to_signed. destruct (Z.ltb_spec 0x7FFF n).
    + symmetry. apply Z.mod_unique with (q := -1); lia.
    + apply Z.mod_small. lia.
  - intros r Hr. now apply to_signed_wrap.
Qed.

Lemma to_signed_roundtrip_witness :
  0 <= 0xFF9C <= 0xFFFF /\
  -0x8000 <= _to_signed 0xFF9C <= 0x7FFF /\ _to_signed 0xFF9C mod 0x10000 = 0xFF9C.
Proof.
  assert (0 <= 0xFF9C <= 0xFFFF) as Hn by lia.
  split; [exact Hn|].
  destruct (to_signed_roundtrip 0xFF9C Hn) as (Hr & Hm & _).
  split; [exact Hr|exact Hm].
Defined.

Section MoreRuns.

Context {D : Type} {T : Transport D}.

Lemma pack_H_rejects (v : Z) :
  v < 0 \/ 0xFFFF < v -> Struct.pack Struct.fmt_H v = Raise StructError.
Proof.
  intros Hv. unfold Struct.pack, Struct.in_range.
  destruct (Z.leb_spec 0 v), (Z.leb_spec v 0xFFFF); try lia; reflexivity.
Qed.

(** ** The calibration setter when it fails *)

(** The setter caches before it writes. A value that is not a 16-bit
    unsigned integer is refused by the packing step: the call raises, no
    transaction is issued and the device is untouched, yet the cache
    already holds the value. A value in range whose write is not
    acknowledged raises the transport error, again with the value
    cached. *)
Theorem set_calibration_caches_before_writing (v : Z) (w : World D) :
  let cached :=
    {| i2c_addr := i2c_addr (self w); _cal_value := v;
       _current_lsb := _current_lsb (self w); _power_lsb := _power_lsb (self w) |} in
  self (snd (set_calibration v w)) = cached /\
  (v < 0 \/ 0xFFFF < v ->
   set_calibration v w =
     (Raise StructError,
      {| self := cached; i2c_device := i2c_device w; log := log w |})) /\
  (0 <= v <= 0xFFFF ->
   fst (bus_write (i2c_device w) x05 (to_bytes_be 2 v)) = false ->
   fst (set_calibration v w) = Raise TransportError).
Proof.
  intros cached. split; [apply set_calibration_self|]. split.
  - intros Hv.
    unfold set_calibration, set_cal_value, UnaryStruct_set, get_attr, lift, bind.
    cbn [format address _raw_calibration self _cal_value].
    now rewrite (pack_H_rejects _ Hv).
  - intros Hv Hnack.
    unfold set_calibration, set_cal_value, UnaryStruct_set, get_attr, lift, bind.
    cbn [format address _raw_calibration self _cal_value].
    rewrite (pack_H_ok _ Hv). cbv beta iota. rewrite write_run.
    cbn [i2c_device fst]. change (low_byte _REG_CALIBRATION) with x05.
    now rewrite Hnack.
Qed.

(** Once a value out of range sits in the cache, [current] and [power]
    raise at the packing step, before any transaction, and go on doing so
    through any calls that are not a calibration set. *)
Theorem refused_calibration_blocks_reads (v : Z) (cs : list call) (w : World D) :
  v < 0 \/ 0xFFFF < v ->
  forallb (fun c => negb (sets_calibration c)) cs = true ->
  let w' := session cs (snd (set_calibration v w)) in
  current w' = (Raise StructError, w') /\ power w' = (Raise StructError, w').
Proof.
  intros Hv Hcs w'.
  assert (_cal_value (self w') = v) as E.
  { unfold w'. rewrite session_cal_value by assumption.
    now rewrite set_calibration_self. }
  split.
  - unfold current, UnaryStruct_set, UnaryStruct_get, get_attr, lift, ret, bind.
    cbn [format address _raw_calibration]. rewrite E.
    now rewrite (pack_H_rejects _ Hv).
  - unfold power, UnaryStruct_set, UnaryStruct_get, get_attr, lift, ret, bind.
    cbn [format address _raw_calibration]. rewrite E.
    now rewrite (pack_H_rejects _ Hv).
Qed.

End MoreRuns.

Lemma set_calibration_caches_before_writing_witness :
  (70000 < 0 \/ 0xFFFF < 70000) /\
  fst (set_calibration 70000 (handle_on sample_device 0)) = Raise StructError /\
  _cal_value (self (snd (set_calibration 70000 (handle_on sample_device 0)))) = 70000 /\
  log (snd (set_calibration 70000 (handle_on sample_device 0))) = [] /\
  0 <= 500 <= 0xFFFF /\
  fst (bus_write (i2c_device (flaky_handle sample_device 0 0)) x05 (to_bytes_be 2 500))
    = false /\
  fst (set_calibration 500 (flaky_handle sample_device 0 0)) = Raise TransportError /\
  _cal_value (self (snd (set_calibration 500 (flaky_handle sample_device 0 0)))) = 500.
Proof.
  assert (70000 < 0 \/ 0xFFFF < 70000) as Hbad by (right; lia).
  assert (0 <= 500 <= 0xFFFF) as Hok by lia.
  destruct (set_calibration_caches_before_writing 70000 (handle_on sample_device 0))
    as (Hs & Hr & _).
  destruct (set_calibration_caches_before_writing 500 (flaky_handle sample_device 0 0))
    as (Hs' & _ & Ht).
  split; [exact Hbad|].
  split; [exact (f_equal fst (Hr Hbad))|].
  split; [exact (f_equal _cal_value Hs)|].
  split; [exact (f_equal (fun p => log (snd p)) (Hr Hbad))|].
  split; [exact Hok|].
  split; [reflexivity|].
  split; [exact (Ht Hok eq_refl)|].
  exact (f_equal _cal_value Hs').
Defined.

Lemma refused_calibration_blocks_reads_witness :
  (-1 < 0 \/ 0xFFFF < -1) /\
  forallb (fun c => negb (sets_calibration c)) [GetBusVoltage; GetBits mode] = true /\
  fst (current (session [GetBusVoltage; GetBits mode]
                  (snd (set_calibration (-1) (handle_on sample_device 0)))))
    = Raise StructError.
Proof.
  assert (-1 < 0 \/ 0xFFFF < -1) as Hbad by (left; lia).
  assert (forallb (fun c => negb (sets_calibration c)) [GetBusVoltage; GetBits mode]
          = true) as Hcs by reflexivity.
  split; [exact Hbad|]. split; [exact Hcs|].
  destruct (refused_calibration_blocks_reads (-1) _ (handle_on sample_device 0) Hbad Hcs)
    as (Hc & _).
  exact (f_equal fst Hc).
Defined.

Section MoreReads.

Context {D : Type} {T : Transport D}.

(** ** [current] and [power]: values and failures *)

Lemma current_result (w : World D) :
  0 <= _cal_value (self w) <= 0xFFFF ->
  let data := to_bytes_be 2 (_cal_value (self w)) in
  fst (current w) =
    if fst (bus_write (i2c_device w) x05 data) then
      match fst (bus_read (snd (bus_write (i2c_device w) x05 data)) x04 2) with
      | Some bs =>
          match Struct.unpack Struct.fmt_h bs with
          | Ok raw => Ok (mul (PyInt raw) (_current_lsb (self w)))
          | Raise e => Raise e
          end
      | None => Raise TransportError
      end
    else Raise TransportError.
Proof.
  intros Hc data.
  unfold current, UnaryStruct_set, UnaryStruct_get, get_attr, lift, ret, bind.
  cbn [format address _raw_calibration raw_current].
  rewrite (pack_H_ok _ Hc).
  change (low_byte _REG_CALIBRATION) with x05.
  change (low_byte _REG_CURRENT) with x04.
  cbv beta iota. rewrite write_run. fold data.
  destruct (fst (bus_write (i2c_device w) x05 data)); [|reflexivity].
  rewrite write_then_readinto_run. unfold Struct.calcsize. cbn [i2c_device].
  destruct (fst (bus_read _ x04 2)) as [bs|]; [|reflexivity].
  destruct (Struct.unpack Struct.fmt_h bs); reflexivity.
Qed.

Lemma power_result (w : World D) :
  0 <= _cal_value (self w) <= 0xFFFF ->
  let data := to_bytes_be 2 (_cal_value (self w)) in
  fst (power w) =
    if fst (bus_write (i2c_device w) x05 data) then
      match fst (bus_read (snd (bus_write (i2c_device w) x05 data)) x03 2) with
      | Some bs =>
          match Struct.unpack Struct.fmt_H bs with
          | Ok raw => Ok (mul (PyInt raw) (_power_lsb (self w)))
          | Raise e => Raise e
          end
      | None => Raise TransportError
      end
    else Raise TransportError.
Proof.
  intros Hc data.
  unfold power, UnaryStruct_set, UnaryStruct_get, get_attr, lift, ret, bind.
  cbn [format address _raw_calibration raw_power].
  rewrite (pack_H_ok _ Hc).
  change (low_byte _REG_CALIBRATION) with x05.
  change (low_byte _REG_POWER) with x03.
  cbv beta iota. rewrite write_run. fold data.
  destruct (fst (bus_write (i2c_device w) x05 data)); [|reflexivity].
  rewrite write_then_readinto_run. unfold Struct.calcsize. cbn [i2c_device].
  destruct (fst (bus_read _ x03 2)) as [bs|]; [|reflexivity].
  destruct (Struct.unpack Struct.fmt_H bs); reflexivity.
Qed.

(** With the calibration write acknowledged, a register pattern [n] makes
    [current] return the signed reading of [n] times the current scale
    factor and [power] the unsigned [n] times the power scale factor,
    whatever the scale factors are. *)
Theorem current_signed_power_unsigned (n : Z) (w : World D) :
  0 <= n <= 0xFFFF ->
  0 <= _cal_value (self w) <= 0xFFFF ->
  let data := to_bytes_be 2 (_cal_value (self w)) in
  fst (bus_write (i2c_device w) x05 data) = true ->
  (fst (bus_read (snd (bus_write (i2c_device w) x05 data)) x04 2)
     = Some (to_bytes_be 2 n) ->
   fst (current w) = Ok (mul (PyInt (_to_signed n)) (_current_lsb (self w)))) /\
  (fst (bus_read (snd (bus_write (i2c_device w) x05 data)) x03 2)
     = Some (to_bytes_be 2 n) ->
   fst (power w) = Ok (mul (PyInt n) (_power_lsb (self w)))).
Proof.
  intros Hn Hc data Hack. split; intros Hread.
  - rewrite (current_result w Hc). fold data. rewrite Hack, Hread.
    now rewrite unpack_h_pattern.
  - rewrite (power_result w Hc). fold data. rewrite Hack, Hread.
    now rewrite unpack_H_to_bytes.
Qed.

(** A transport failure ends [current] and [power] with the transport
    error, whether it hits the calibration write or the register read
    after it; neither retries (the log of C1 is all there is) and
    neither changes the handle. *)
Theorem current_power_transport_failure (w : World D) :
  0 <= _cal_value (self w) <= 0xFFFF ->
  let data := to_bytes_be 2 (_cal_value (self w)) in
  (fst (bus_write (i2c_device w) x05 data) = false ->
   fst (current w) = Raise TransportError /\ fst (power w) = Raise TransportError) /\
  (fst (bus_write (i2c_device w) x05 data) = true ->
   fst (bus_read (snd (bus_write (i2c_device w) x05 data)) x04 2) = None ->
   fst (current w) = Raise TransportError) /\
  (fst (bus_write (i2c_device w) x05 data) = true ->
   fst (bus_read (snd (bus_write (i2c_device w) x05 data)) x03 2) = None ->
   fst (power w) = Raise TransportError) /\
  self (snd (current w)) = self w /\
  self (snd (power w)) = self w.
Proof.
  intros Hc data. split; [|split; [|split; [|split]]].
  - intros Hnack. rewrite (current_result w Hc), (power_result w Hc).
    fold data. now rewrite Hnack.
  - intros Hack Hread. rewrite (current_result w Hc). fold data.
    now rewrite Hack, Hread.
  - intros Hack Hread. rewrite (power_result w Hc). fold data.
    now rewrite Hack, Hread.
  - apply keeps_self_current.
  - apply keeps_self_power.
Qed.

(** ** The voltage properties *)

Lemma UnaryStruct_get_run (u : UnaryStruct) (w : World D) :
  UnaryStruct_get u w =
    (match fst (bus_read (i2c_device w) (low_byte (address u)) 2) with
     | Some bs => Struct.unpack (format u) bs
     | None => Raise TransportError
     end,
     {| self := self w;
        i2c_device := snd (bus_read (i2c_device w) (low_byte (address u)) 2);
        log := log w ++ [BusRead (low_byte (address u)) 2] |}).
Proof.
  unfold UnaryStruct_get, lift, bind, Struct.calcsize.
  rewrite write_then_readinto_run.
  destruct (fst (bus_read _ _ _)) as [bs|]; reflexivity.
Qed.

Lemma scaled_read_run (u : UnaryStruct) (k : number) (w : World D) :
  (raw <- UnaryStruct_get u ;; ret (mul (PyInt raw) k)) w =
    (match fst (UnaryStruct_get u w) with
     | Ok raw => Ok (mul (PyInt raw) k)
     | Raise e => Raise e
     end, snd (UnaryStruct_get u w)).
Proof.
  unfold bind, ret. destruct (UnaryStruct_get u w) as [[raw|e] w']; reflexivity.
Qed.

(** [shunt_voltage] and [bus_voltage] each cost exactly one transaction, a
    two-byte read of register 0x01, respectively 0x02; they write nothing,
    leave the handle alone, and their result depends on the device only,
    not on the calibration or the scale factors. *)
Theorem voltage_reads_one_transaction (w : World D) :
  log (snd (shunt_voltage w)) = log w ++ [BusRead x01 2] /\
  log (snd (bus_voltage w)) = log w ++ [BusRead x02 2] /\
  self (snd (shunt_voltage w)) = self w /\
  self (snd (bus_voltage w)) = self w /\
  (forall w2 : World D,
      i2c_device w2 = i2c_device w ->
      fst (shunt_voltage w2) = fst (shunt_voltage w) /\
      fst (bus_voltage w2) = fst (bus_voltage w)).
Proof.
  split; [|split; [|split; [|split]]].
  - unfold shunt_voltage. now rewrite scaled_read_run, UnaryStruct_get_run.
  - unfold bus_voltage. now rewrite scaled_read_run, UnaryStruct_get_run.
  - apply keeps_self_shunt_voltage.
  - apply keeps_self_bus_voltage.
  - intros w2 Hd. unfold shunt_voltage, bus_voltage.
    rewrite !scaled_read_run, !UnaryStruct_get_run. cbn [fst]. now rewrite Hd.
Qed.

End MoreReads.
